(** * The Programs page (src/pages/Programs/Programs.tsx)

    A shallow embedding of the page component, of the creation dialog it
    builds with [getModalContent], and of the promise chain that loads the
    list of programs, followed by the properties of these handlers.

    JavaScript objects are finite maps from property names to values, React
    state is an explicit record threaded through a small state-and-exception
    monad, and everything the handlers do to the outside (gateway calls,
    console output) is appended to a log. *)

From Stdlib Require Import ZArith Ascii String List.
From stdpp Require Import base tactics option list strings gmap pretty.

Local Open Scope string_scope.
Local Open Scope list_scope.

(* ================================================================== *)
(** * Values and objects *)
(* ================================================================== *)

(** A JavaScript [Date], by its time value (milliseconds since the epoch). *)
Record Date := NewDate { getTime : Z }.

(** [new Date(d)] for a [Date] argument copies the time value. *)
Definition newDateFrom (d : Date) : Date := NewDate (getTime d).

(** A Firestore [Timestamp].  The page uses it through [toDate()] only, so
    it is represented by the [Date] that method returns. *)
Record Timestamp := { toDate : Date }.

Inductive Value :=
| VStr (s : string)
| VNum (n : Z)
| VDate (d : Date)
| VTimestamp (t : Timestamp).

(** [type Program]: an object with the properties [id?], [title],
    [createdAt], [prerequisiteProgramId?], [traineeCount] and
    [durationInWeeks].  The change handler writes a property chosen at run
    time, so the object is kept as a map from property names to values. *)
Abbreviation Program := (gmap string Value).

(** [type FormErrors]: error text per field name. *)
Abbreviation FormErrors := (gmap string string).

#[global] Instance Date_eq_dec : EqDecision Date.
Proof. solve_decision. Defined.
#[global] Instance Timestamp_eq_dec : EqDecision Timestamp.
Proof. solve_decision. Defined.
#[global] Instance Value_eq_dec : EqDecision Value.
Proof. solve_decision. Defined.

(* ================================================================== *)
(** * The validator's error and other exceptions *)
(* ================================================================== *)

(** One element of a path in a Joi error detail: a property name or an
    array index. *)
Inductive PathSegment :=
| SegName (s : string)
| SegIndex (n : N).

(** One entry of [ValidationError.details]. *)
Record Detail := { path : list PathSegment; detailMessage : string }.

(** Joi's [ValidationError]: the [message] and the ordered [details]. *)
Record ValidationError := { message : string; details : list Detail }.

(** What a [catch] clause can receive: a [ValidationError], or any other
    error object (a transport failure, a [TypeError] raised by the engine),
    of which only the message is kept. *)
Inductive JsError :=
| IsValidationError (e : ValidationError)
| OtherError (msg : string).

Definition errMessage (e : JsError) : string :=
  match e with
  | IsValidationError v => message v
  | OtherError msg => msg
  end.

(** A property key computed from a path segment ([{ [k]: v }]): a string
    is used as it is, a number is printed in decimal. *)
Definition propertyKey (seg : PathSegment) : string :=
  match seg with
  | SegName s => s
  | SegIndex n => pretty n
  end.

(* ================================================================== *)
(** * [err.message.replace(/^".+"/, 'Field')] *)
(* ================================================================== *)

Definition dquote : ascii := "034"%char.
Definition LF : ascii := "010"%char.
Definition CR : ascii := "013"%char.

(** Strings are kept in UTF-8.  The characters [.] does not match are the
    line terminators: LF and CR, one byte each, and U+2028 and U+2029,
    the byte sequences E2 80 A8 and E2 80 A9.  A double quote is one byte,
    and none of these bytes occurs inside the encoding of another
    character, so scanning bytes finds what the pattern finds.
    [startsWithLineTerminator s] tells whether [s] begins with one. *)
Definition startsWithLineTerminator (s : string) : bool :=
  match s with
  | EmptyString => false
  | String c rest =>
      Ascii.eqb c LF || Ascii.eqb c CR
      || (Ascii.eqb c "226"
          && match rest with
             | String c2 (String c3 _) =>
                 Ascii.eqb c2 "128"
                 && (Ascii.eqb c3 "168" || Ascii.eqb c3 "169")
             | _ => false
             end)
  end.

(** [afterLastQuote s]: the text after the last double quote that the
    greedy [.+] can reach in [s], that is, the last double quote before
    the first line terminator of [s]. *)
Fixpoint afterLastQuote (s : string) : option string :=
  match s with
  | EmptyString => None
  | String c s' =>
      if startsWithLineTerminator (String c s') then None
      else match afterLastQuote s' with
           | Some rest => Some rest
           | None => if Ascii.eqb c dquote then Some s' else None
           end
  end.

(** The match of [/^".+"/] at the start of [s], given by the text that
    follows it: an opening quote, at least one character that is not a
    line terminator, then as many as possible up to a closing quote. *)
Definition matchLeadingQuoted (s : string) : option string :=
  match s with
  | String q (String c rest) =>
      if Ascii.eqb q dquote && negb (startsWithLineTerminator (String c rest))
      then afterLastQuote rest
      else None
  | _ => None
  end.

(** [s.replace(/^".+"/, 'Field')]: the match, when there is one, is
    replaced by [Field]; otherwise the string is returned unchanged. *)
Definition replaceLeadingQuoted (s : string) : string :=
  match matchLeadingQuoted s with
  | Some rest => "Field" +:+ rest
  | None => s
  end.

(** [quoted s] is [s] between double quotes. *)
Definition quoted (s : string) : string :=
  String dquote (s +:+ String dquote EmptyString).

(* ================================================================== *)
(** * Component state, effects and the handler monad *)
(* ================================================================== *)

(** The state cells of [ProgramsPage] (its [useState] calls), and whether
    the dialog of [useModal] is open. *)
Record PageState := {
  programs : list Program;
  isLoading : bool;
  isCreatingProgram : bool;
  errors : FormErrors;
  newProgram : Program;
  modalOpen : bool
}.

(** What the page does to its collaborators, in the order it does it. *)
Inductive Effect :=
| PreventDefault
| CallCreate (draft : Program)
| CallGetAll
| ConsoleLog (msg : string).

#[global] Instance Effect_eq_dec : EqDecision Effect.
Proof. solve_decision. Defined.

(** The state of the page, the log of its effects, and whether a state
    update has asked the runtime for a render that has not happened yet. *)
Record World := {
  page : PageState;
  log : list Effect;
  renderPending : bool
}.

Inductive Completion (A : Type) :=
| Normal (a : A)
| Throw (e : JsError).
Arguments Normal {A} a.
Arguments Throw {A} e.

(** A piece of handler code: it runs in a world, changes it, and either
    completes with a value or throws. *)
Definition M (A : Type) : Type := World -> Completion A * World.

Definition ret {A} (a : A) : M A := fun w => (Normal a, w).

Definition throw {A} (e : JsError) : M A := fun w => (Throw e, w).

Definition bind {A B} (m : M A) (k : A -> M B) : M B :=
  fun w =>
    match m w with
    | (Normal a, w') => k a w'
    | (Throw e, w') => (Throw e, w')
    end.

(** [try { body } catch (err) { handler err }] *)
Definition tryCatch {A} (body : M A) (handler : JsError -> M A) : M A :=
  fun w =>
    match body w with
    | (Normal a, w') => (Normal a, w')
    | (Throw e, w') => handler e w'
    end.

(** [promise.finally(onFinally)]: the callback runs whatever the outcome,
    which is passed on unless the callback itself throws. *)
Definition andFinally {A} (m : M A) (onFinally : M unit) : M A :=
  fun w =>
    match m w with
    | (c, w') =>
        match onFinally w' with
        | (Normal _, w'') => (c, w'')
        | (Throw e, w'') => (Throw e, w'')
        end
    end.

(** The monad structure, for stdpp's [x ← m; k] and [m ;; k]. *)
#[global] Instance M_ret : MRet M := @ret.
#[global] Instance M_bind : MBind M := fun A B k m => bind m k.

Definition getState : M PageState := fun w => (Normal (page w), w).

Definition emit (e : Effect) : M unit :=
  fun w => (Normal tt,
            {| page := page w; log := log w ++ [e];
               renderPending := renderPending w |}).

(** A state setter stores the new value; [changed] tells whether React
    sees a different value ([Object.is]) and so schedules a render. *)
Definition setState (f : PageState -> PageState) (changed : PageState -> bool)
  : M unit :=
  fun w => (Normal tt,
            {| page := f (page w); log := log w;
               renderPending := renderPending w || changed (page w) |}).

(** A freshly built array or object is never identical to the stored one. *)
Definition fresh : PageState -> bool := fun _ => true.

Definition updatePrograms (v : list Program) : M unit :=
  setState (fun st => {| programs := v; isLoading := isLoading st;
                         isCreatingProgram := isCreatingProgram st;
                         errors := errors st; newProgram := newProgram st;
                         modalOpen := modalOpen st |}) fresh.

Definition updateLoadingStatus (v : bool) : M unit :=
  setState (fun st => {| programs := programs st; isLoading := v;
                         isCreatingProgram := isCreatingProgram st;
                         errors := errors st; newProgram := newProgram st;
                         modalOpen := modalOpen st |})
           (fun st => negb (Bool.eqb (isLoading st) v)).

Definition updateCreatingProgramStatus (v : bool) : M unit :=
  setState (fun st => {| programs := programs st; isLoading := isLoading st;
                         isCreatingProgram := v;
                         errors := errors st; newProgram := newProgram st;
                         modalOpen := modalOpen st |})
           (fun st => negb (Bool.eqb (isCreatingProgram st) v)).

Definition updateErrors (v : FormErrors) : M unit :=
  setState (fun st => {| programs := programs st; isLoading := isLoading st;
                         isCreatingProgram := isCreatingProgram st;
                         errors := v; newProgram := newProgram st;
                         modalOpen := modalOpen st |}) fresh.

Definition updateNewProgram (v : Program) : M unit :=
  setState (fun st => {| programs := programs st; isLoading := isLoading st;
                         isCreatingProgram := isCreatingProgram st;
                         errors := errors st; newProgram := v;
                         modalOpen := modalOpen st |}) fresh.

(** Modelled from the spec: the [useModal] hook (components/Modal/Modal) is
    not among the sources.  The dialog it owns is taken to be a boolean
    that [toggleModal] flips, shown exactly when the boolean is set. *)
Definition toggleModal : M unit :=
  setState (fun st => {| programs := programs st; isLoading := isLoading st;
                         isCreatingProgram := isCreatingProgram st;
                         errors := errors st; newProgram := newProgram st;
                         modalOpen := negb (modalOpen st) |}) fresh.

(** The initial values of the state cells; [now] is [new Date()]. *)
Definition initialState (now : Date) : PageState :=
  {| programs := [];
     isLoading := true;
     isCreatingProgram := false;
     errors := <["title" := EmptyString]>
                 (<["prerequisiteProgramId" := EmptyString]>
                    (<["durationInWeeks" := EmptyString]> ∅));
     newProgram := <["title" := VStr EmptyString]>
                     (<["prerequisiteProgramId" := VStr EmptyString]>
                        (<["createdAt" := VDate now]>
                           (<["traineeCount" := VNum 0]>
                              (<["durationInWeeks" := VNum 2]> ∅))));
     modalOpen := false |}.

(** The page before its first render. *)
Definition mount (now : Date) : World :=
  {| page := initialState now; log := []; renderPending := true |}.

(* ================================================================== *)
(** * The creation dialog: [getModalContent] *)
(* ================================================================== *)

(** The values [getModalContent] is called with.  Its parameter
    [newProgram] is reassigned by the change handler, so the handlers of
    one call share this binding; the setters and [toggleModal] are those of
    the page. *)
Record ModalScope := {
  scopePrograms : list Program;
  scopeErrors : FormErrors;
  scopeNewProgram : Program;
  scopeIsCreatingProgram : bool
}.

(** The arguments [ProgramsPage] passes to [getModalContent]. *)
Definition modalScope (st : PageState) : ModalScope :=
  {| scopePrograms := programs st;
     scopeErrors := errors st;
     scopeNewProgram := newProgram st;
     scopeIsCreatingProgram := isCreatingProgram st |}.

(** [event.target.name] and [event.target.value] of a change event. *)
Record ChangeEvent := { targetName : string; targetValue : string }.

(** [newProgram = { ...newProgram, [event.target.name]: event.target.value }] *)
Definition newProgramOnChangeHandler (event : ChangeEvent) (scope : ModalScope)
  : M ModalScope :=
  ret {| scopePrograms := scopePrograms scope;
         scopeErrors := scopeErrors scope;
         scopeNewProgram :=
           <[targetName event := VStr (targetValue event)]>
             (scopeNewProgram scope);
         scopeIsCreatingProgram := scopeIsCreatingProgram scope |}.

(** How [ProgramModel.create] settles: with the new document's reference,
    of which [id] is read, or with an error. *)
Inductive CreateOutcome :=
| Created (docRefId : string)
| CreateRejected (err : JsError).

(** The gateway, as far as creation goes. *)
Definition Gateway : Type := Program -> CreateOutcome.

(** [await ProgramModel.create(draft)] *)
Definition awaitCreate (gateway : Gateway) (draft : Program) : M string :=
  emit (CallCreate draft) ;;
  match gateway draft with
  | Created id => ret id
  | CreateRejected err => throw err
  end.

(** [err.details[0].path[0]] as a property key.  Reading [path] of a
    missing first detail throws; a missing first segment is [undefined],
    whose key is the string [undefined]. *)
Definition firstPathKey (err : ValidationError) : M string :=
  match details err with
  | [] => throw (OtherError "Cannot read property 'path' of undefined")
  | d :: _ =>
      ret (match path d with
           | [] => "undefined"
           | seg :: _ => propertyKey seg
           end)
  end.

(** The submit handler of the form. *)
Definition addNewProgramHandler (gateway : Gateway) (scope : ModalScope)
  : M unit :=
  tryCatch
    (emit PreventDefault ;;
     updateCreatingProgramStatus true ;;
     docRefId ← awaitCreate gateway (scopeNewProgram scope) ;
     toggleModal ;;
     updateCreatingProgramStatus false ;;
     updatePrograms
       (scopePrograms scope
          ++ [<["id" := VStr docRefId]> (scopeNewProgram scope)]) ;;
     updateErrors ∅)
    (fun err =>
       match err with
       | IsValidationError verr =>
           updateCreatingProgramStatus false ;;
           updateNewProgram (scopeNewProgram scope) ;;
           let errorMessage := replaceLeadingQuoted (message verr) in
           key ← firstPathKey verr ;
           updateErrors {[ key := errorMessage ]}
       | OtherError _ => ret tt
       end).

(** The properties handed to a [TextInput]; [None] where the source gives
    none.  [onChange] tells whether [newProgramOnChangeHandler] is wired. *)
Record TextInputProps := {
  name : string;
  inputType : option string;
  placeholder : string;
  onChange : bool;
  disabled : option bool;
  error : option string;
  value : option string;
  defaultValue : option string
}.

Record ButtonProps := { buttonDisabled : bool; buttonLabel : string }.

(** The form [getModalContent] returns. *)
Record Form := { inputs : list TextInputProps; submitButton : ButtonProps }.

Definition getModalContent (scope : ModalScope) : Form :=
  {| inputs :=
       [ {| name := "title"; inputType := None;
            placeholder := "Program Name"; onChange := true;
            disabled := None;
            error := scopeErrors scope !! "title";
            value := None; defaultValue := None |};
         {| name := "durationInWeeks"; inputType := Some "number";
            placeholder := "Duration In Weeks"; onChange := true;
            disabled := None;
            error := scopeErrors scope !! "durationInWeeks";
            value := None; defaultValue := None |};
         {| name := "prerequisiteProgramId"; inputType := None;
            placeholder := "Pre-requisite Program"; onChange := false;
            disabled := Some (Nat.eqb (length (scopePrograms scope)) 0);
            error := scopeErrors scope !! "prerequisiteProgramId";
            value := None; defaultValue := None |} ];
     submitButton :=
       {| buttonDisabled := scopeIsCreatingProgram scope;
          buttonLabel := if negb (scopeIsCreatingProgram scope)
                         then "Create Program" else "Please Wait..." |} |}.

(* ================================================================== *)
(** * Loading the list: the promise chain on [ProgramModel.getAll()] *)
(* ================================================================== *)

(** How [ProgramModel.getAll()] settles: with the collection snapshot,
    given by the [data()] of its documents in order, or with an error. *)
Inductive GetAllOutcome :=
| Resolved (snapshot : list Program)
| Rejected (err : JsError).

(** [x.createdAt = new Date(x.createdAt.toDate())] on the record just
    appended.  Only a timestamp has [toDate]; on anything else the engine
    raises a [TypeError]. *)
Definition convertCreatedAt (data : Program) : M Program :=
  match data !! "createdAt" with
  | Some (VTimestamp t) =>
      ret (<["createdAt" := VDate (newDateFrom (toDate t))]> data)
  | Some _ => throw (OtherError "createdAt.toDate is not a function")
  | None => throw (OtherError "Cannot read property 'toDate' of undefined")
  end.

(** [programsCollectionSnapshot.forEach(...)], growing [existingPrograms]. *)
Fixpoint forEachProgram (snapshot existingPrograms : list Program)
  : M (list Program) :=
  match snapshot with
  | [] => ret existingPrograms
  | program :: rest =>
      converted ← convertCreatedAt program ;
      forEachProgram rest (existingPrograms ++ [converted])
  end.

(** The [then] callback. *)
Definition onGetAllResolved (snapshot : list Program) : M unit :=
  existingPrograms ← forEachProgram snapshot [] ;
  updatePrograms existingPrograms.

(** The [catch] callback. *)
Definition onGetAllRejected (err : JsError) : M unit :=
  emit (ConsoleLog (errMessage err)).

(** The [finally] callback. *)
Definition onGetAllFinally : M unit := updateLoadingStatus false.

(** [getAll().then(...).catch(...)] once [getAll()] has settled. *)
Definition getAllSettled (outcome : GetAllOutcome) : M unit :=
  tryCatch
    (match outcome with
     | Resolved snapshot => onGetAllResolved snapshot
     | Rejected err => throw err
     end)
    onGetAllRejected.

(** The whole chain, [.finally(...)] included. *)
Definition loadChain (outcome : GetAllOutcome) : M unit :=
  andFinally (getAllSettled outcome) onGetAllFinally.

(* ================================================================== *)
(** * What [ProgramsPage] renders *)
(* ================================================================== *)

(** [date.toLocaleDateString('en-US', { year: 'numeric', month: 'long',
    day: 'numeric' })], kept as the call on its date. *)
Inductive LocaleDateString := EnUsLongDate (d : Date).

(** The properties handed to a [Card]. *)
Record CardProps := {
  cardTraineeCount : option Value;
  cardTitle : option Value;
  cardCreatedAt : LocaleDateString
}.

(** The one click handler the page wires to its buttons. *)
Inductive OnClick := ClickTogglesModal.

Record ButtonElement := { onClick : OnClick; caption : string }.

Inductive View :=
| LoadingView
| EmptyStateView (icon title desc : string) (create : ButtonElement)
                 (modal : option Form)
| ProgramsView (toolbar : ButtonElement) (cards : list CardProps)
               (modal : option Form).

(** The card of one program.  [toLocaleDateString] exists on a [Date]
    only; on anything else the engine raises a [TypeError]. *)
Definition card (program : Program) : M CardProps :=
  match program !! "createdAt" with
  | Some (VDate d) =>
      ret {| cardTraineeCount := program !! "traineeCount";
             cardTitle := program !! "title";
             cardCreatedAt := EnUsLongDate d |}
  | Some _ =>
      throw (OtherError "program.createdAt.toLocaleDateString is not a function")
  | None =>
      throw (OtherError "Cannot read property 'toLocaleDateString' of undefined")
  end.

(** [programs.map((program) => <Card ... />)] *)
Fixpoint mapCards (ps : list Program) : M (list CardProps) :=
  match ps with
  | [] => ret []
  | program :: rest =>
      c ← card program ;
      cs ← mapCards rest ;
      ret (c :: cs)
  end.

(** Modelled from the spec: the [Modal] element of the [useModal] hook,
    which is not among the sources.  It shows the content built by
    [getModalContent] from the current state while the dialog is open. *)
Definition Modal (st : PageState) : option Form :=
  if modalOpen st then Some (getModalContent (modalScope st)) else None.

Definition createButton : ButtonElement :=
  {| onClick := ClickTogglesModal; caption := "Create A New Program" |}.

(** The body of the function component, run once per render. *)
Definition ProgramsPage : M View :=
  st ← getState ;
  if isLoading st then
    emit CallGetAll ;;
    ret LoadingView
  else if Nat.eqb (length (programs st)) 0 && negb (isLoading st) then
    ret (EmptyStateView "programs" "There are no available programs"
                        "Go ahead, create one!" createButton (Modal st))
  else
    cards ← mapCards (programs st) ;
    ret (ProgramsView createButton cards (Modal st)).

(** The three kinds of view. *)
Inductive ViewClass := Loading | EmptyState | Populated.

Definition classify (v : View) : ViewClass :=
  match v with
  | LoadingView => Loading
  | EmptyStateView _ _ _ _ _ => EmptyState
  | ProgramsView _ _ _ => Populated
  end.

(* ================================================================== *)
(** * Executions of the page *)
(* ================================================================== *)

(** The page together with the [getAll()] promises it has created: those
    that have not settled yet, and those whose [then]/[catch] callbacks
    have run and whose [finally] callback is still to run. *)
Record Runtime := {
  world : World;
  unsettledGetAll : nat;
  awaitingFinally : nat
}.

(** A change event the dialog can deliver: it is open, and one of its
    inputs has the event's name and is wired to the change handler. *)
Definition deliverable (modal : option Form) (event : ChangeEvent) : bool :=
  match modal with
  | Some form =>
      existsb (fun input => onChange input
                            && String.eqb (name input) (targetName event))
              (inputs form)
  | None => false
  end.

(** What can happen to a mounted page.  A render happens only when one is
    pending: after mounting and after a state update.  React's legacy mode
    renders at once on every update made from a promise callback; the
    callbacks of one chain run in separate jobs, so a render can fall
    between the [then] and the [finally] callback.  The form is submitted
    from the open dialog, after edits its inputs can deliver. *)
Inductive Event :=
| Render
| GetAllSettles (outcome : GetAllOutcome)
| GetAllFinally
| ClickCreate
| Submit (edits : list ChangeEvent) (gateway : Gateway).

(** The user's edits, in order, on the binding shared by the handlers. *)
Fixpoint typeInto (edits : list ChangeEvent) (scope : ModalScope)
  : M ModalScope :=
  match edits with
  | [] => ret scope
  | event :: rest =>
      scope' ← newProgramOnChangeHandler event scope ;
      typeInto rest scope'
  end.

(** Editing the form shown for the current state, then submitting it; the
    handler is followed through to the settling of [create]. *)
Definition editAndSubmit (edits : list ChangeEvent) (gateway : Gateway)
  : M unit :=
  st ← getState ;
  scope ← typeInto edits (modalScope st) ;
  addNewProgramHandler gateway scope.

Definition startRender (w : World) : World :=
  {| page := page w; log := log w; renderPending := false |}.

(** One event; [None] when it cannot happen in this state.  An exception
    thrown while rendering ends the execution; an exception that escapes
    an event handler is an unhandled rejection and changes nothing more. *)
Definition step (ev : Event) (rt : Runtime) : option Runtime :=
  match ev with
  | Render =>
      if renderPending (world rt) then
        match ProgramsPage (startRender (world rt)) with
        | (Normal _, w') =>
            Some {| world := w';
                    unsettledGetAll :=
                      (if isLoading (page (world rt)) then 1 else 0)
                      + unsettledGetAll rt;
                    awaitingFinally := awaitingFinally rt |}
        | (Throw _, _) => None
        end
      else None
  | GetAllSettles outcome =>
      match unsettledGetAll rt with
      | O => None
      | S n =>
          Some {| world := snd (getAllSettled outcome (world rt));
                  unsettledGetAll := n;
                  awaitingFinally := S (awaitingFinally rt) |}
      end
  | GetAllFinally =>
      match awaitingFinally rt with
      | O => None
      | S n =>
          Some {| world := snd (onGetAllFinally (world rt));
                  unsettledGetAll := unsettledGetAll rt;
                  awaitingFinally := n |}
      end
  | ClickCreate =>
      if isLoading (page (world rt)) then None
      else Some {| world := snd (toggleModal (world rt));
                   unsettledGetAll := unsettledGetAll rt;
                   awaitingFinally := awaitingFinally rt |}
  | Submit edits gateway =>
      if modalOpen (page (world rt))
         && forallb (deliverable (Modal (page (world rt)))) edits then
        Some {| world := snd (editAndSubmit edits gateway (world rt));
                unsettledGetAll := unsettledGetAll rt;
                awaitingFinally := awaitingFinally rt |}
      else None
  end.

Fixpoint run (events : list Event) (rt : Runtime) : option Runtime :=
  match events with
  | [] => Some rt
  | ev :: rest =>
      match step ev rt with
      | Some rt' => run rest rt'
      | None => None
      end
  end.

(** The page when it is mounted: nothing rendered, nothing requested. *)
Definition mounted (now : Date) : Runtime :=
  {| world := mount now; unsettledGetAll := 0; awaitingFinally := 0 |}.

(** How many times [ProgramModel.getAll()] has been called. *)
Definition getAllCalls (w : World) : nat :=
  count_occ Effect_eq_dec (log w) CallGetAll.


(* ================================================================== *)
(** * Vocabulary of the statements *)
(* ================================================================== *)

(** The input of a form with the given name. *)
Definition inputNamed (field : string) (form : Form) : option TextInputProps :=
  List.find (fun input => String.eqb (name input) field) (inputs form).

(** The line terminators of ECMAScript, in UTF-8: LF, CR, U+2028 and
    U+2029. *)
Definition lineTerminators : list string :=
  [ String "010" EmptyString;
    String "013" EmptyString;
    String "226" (String "128" (String "168" EmptyString));
    String "226" (String "128" (String "169" EmptyString)) ].

(** A line terminator occurs somewhere in [s]. *)
Definition hasLineTerminator (s : string) : Prop :=
  exists pre t post, t ∈ lineTerminators /\ s = pre +:+ t +:+ post.

(** A double quote occurs on the first line of [s]: before any line
    terminator. *)
Definition quoteOnFirstLine (s : string) : Prop :=
  exists pre post,
    ~ hasLineTerminator pre /\ s = pre +:+ String dquote post.

(** No line terminator begins inside [body] when [tail] follows it. *)
Fixpoint clearBefore (body tail : string) : bool :=
  match body with
  | EmptyString => true
  | String c body' =>
      negb (startsWithLineTerminator (String c body' +:+ tail))
      && clearBefore body' tail
  end.

Definition hasTimestamp (data : Program) : bool :=
  match data !! "createdAt" with
  | Some (VTimestamp _) => true
  | _ => false
  end.

Definition hasDate (p : Program) : bool :=
  match p !! "createdAt" with
  | Some (VDate _) => true
  | _ => false
  end.

(** [p] is the stored record [data] with its timestamp turned into a
    [Date] of the same time value, and every other property unchanged. *)
Definition converted (data p : Program) : Prop :=
  exists t d, data !! "createdAt" = Some (VTimestamp t)
              /\ getTime d = getTime (toDate t)
              /\ p = <["createdAt" := VDate d]> data.

(** [c] is the card of [p]: its trainee count, its title and the long
    form of its creation date. *)
Definition shows (p : Program) (c : CardProps) : Prop :=
  exists d, p !! "createdAt" = Some (VDate d)
            /\ c = {| cardTraineeCount := p !! "traineeCount";
                      cardTitle := p !! "title";
                      cardCreatedAt := EnUsLongDate d |}.

(** The text the user has typed into each input, by input name. *)
Abbreviation Dom := (gmap string string).

(** What an input shows: its [value] when the form gives one; otherwise
    the text typed into it, and before any typing its [defaultValue], or
    nothing. *)
Definition shown (dom : Dom) (input : TextInputProps) : string :=
  match value input with
  | Some v => v
  | None =>
      match dom !! name input with
      | Some typed => typed
      | None => default EmptyString (defaultValue input)
      end
  end.

(** The text [text] is what a field holding [v] reads as: the string
    itself, the decimal form of a number, nothing for a missing field. *)
Definition displays (text : string) (v : option Value) : Prop :=
  match v with
  | Some (VStr s) => text = s
  | Some (VNum n) => text = pretty n
  | Some _ => False
  | None => text = EmptyString
  end.

(** Every input of the form shows the draft's field of its name. *)
Definition showsDraft (dom : Dom) (form : Form) (draft : Program) : Prop :=
  Forall (fun input => displays (shown dom input) (draft !! name input))
         (inputs form).

(** The kind of view a render produces, when it produces one. *)
Definition viewClass (w : World) : option ViewClass :=
  match fst (ProgramsPage w) with
  | Normal v => Some (classify v)
  | Throw _ => None
  end.

(** The empty-state view, with the dialog as the state has it. *)
Definition emptyState (st : PageState) : View :=
  EmptyStateView "programs" "There are no available programs"
                 "Go ahead, create one!" createButton (Modal st).

(** Every program of the page, and the draft, has a creation date, as
    [type Program] says. *)
Definition wellDated (st : PageState) : Prop :=
  forallb hasDate (programs st) = true /\ hasDate (newProgram st) = true.

(* ================================================================== *)
(** * Sample inputs *)
(* ================================================================== *)

(** The draft of the running example: the initial draft with a title and a
    duration typed in. *)
Definition cohort5 : Program :=
  <["durationInWeeks" := VStr "6"]>
    (<["title" := VStr "Cohort 5"]> (newProgram (initialState (NewDate 0)))).

(** A page that has finished loading an empty list and shows the dialog. *)
Definition dialogOpen : World :=
  {| page :=
       {| programs := []; isLoading := false; isCreatingProgram := false;
          errors := errors (initialState (NewDate 0));
          newProgram := newProgram (initialState (NewDate 0));
          modalOpen := true |};
     log := []; renderPending := false |}.

(** The form of [dialogOpen] after the user has typed [cohort5]. *)
Definition cohort5Scope : ModalScope :=
  {| scopePrograms := []; scopeErrors := errors (page dialogOpen);
     scopeNewProgram := cohort5; scopeIsCreatingProgram := false |}.

(** A validation error with one problem, as Joi reports it. *)
Definition titleEmpty : ValidationError :=
  {| message := quoted "title" +:+ " is not allowed to be empty";
     details :=
       [ {| path := [SegName "title"];
            detailMessage :=
              quoted "title" +:+ " is not allowed to be empty" |} ] |}.

(** A validation error with two problems, as Joi reports it when it does
    not stop at the first: the message joins the problems' messages. *)
Definition twoProblems : ValidationError :=
  {| message :=
       quoted "title" +:+ " is not allowed to be empty. "
         +:+ quoted "durationInWeeks" +:+ " must be a number";
     details :=
       [ {| path := [SegName "title"];
            detailMessage :=
              quoted "title" +:+ " is not allowed to be empty" |};
         {| path := [SegName "durationInWeeks"];
            detailMessage :=
              quoted "durationInWeeks" +:+ " must be a number" |} ] |}.

(** A stored record, with a Firestore timestamp. *)
Definition stored (title : string) (ms : Z) : Program :=
  <["title" := VStr title]>
    (<["createdAt" := VTimestamp {| toDate := NewDate ms |}]>
       (<["traineeCount" := VNum 0]> (<["durationInWeeks" := VNum 2]> ∅))).

(** A page that has loaded two programs. *)
Definition twoLoaded : World :=
  snd (loadChain (Resolved [stored "Cohort 1" 1000; stored "Cohort 2" 2000])
                 (mount (NewDate 0))).

(** The load as React's legacy mode runs it when [getAll()] resolves: the
    mounting render requests the list; the [then] callback stores it, and
    the render this update asks for happens before the [finally] callback
    has cleared the loading flag, so it requests the list again. *)
Definition legacyModeLoad (snapshot1 snapshot2 : list Program) : list Event :=
  [ Render; GetAllSettles (Resolved snapshot1);
    Render; GetAllFinally;
    Render; GetAllSettles (Resolved snapshot2);
    Render; GetAllFinally ].

(* ================================================================== *)
(** * The Settings page (src/pages/Settings/Settings.tsx) *)
(* ================================================================== *)

(** What [SettingsPage] renders: an icon, two lines of text and a button. *)
Record SettingsView := {
  settingsIcon : string;
  settingsTitle : string;
  settingsDesc : string;
  settingsButton : string
}.

Definition SettingsPage : SettingsView :=
  {| settingsIcon := "settings";
     settingsTitle := "There's no data here";
     settingsDesc := "Go ahead and create some data";
     settingsButton := "Create Data" |}.

(** The button's [onClick]: [() => console.log('Create Data')]. *)
Definition settingsOnClick : M unit := emit (ConsoleLog "Create Data").

(** [n] clicks on the button, one after the other. *)
Fixpoint settingsClicks (n : nat) : M unit :=
  match n with
  | O => ret tt
  | S n' => settingsOnClick ;; settingsClicks n'
  end.

(* ================================================================== *)
(** * Vocabulary of the further statements *)
(* ================================================================== *)

(** The value of the last of [edits] that names [field], if any. *)
Fixpoint lastEdit (field : string) (edits : list ChangeEvent) : option string :=
  match edits with
  | [] => None
  | event :: rest =>
      match lastEdit field rest with
      | Some v => Some v
      | None =>
          if String.eqb (targetName event) field
          then Some (targetValue event) else None
      end
  end.

(** The draft after [edits], field by field. *)
Definition edited (edits : list ChangeEvent) (draft : Program)
    (field : string) : option Value :=
  match lastEdit field edits with
  | Some v => Some (VStr v)
  | None => draft !! field
  end.

(** The draft after [edits]: each event writes its field, in order. *)
Definition applyEdits (edits : list ChangeEvent) (draft : Program) : Program :=
  fold_left (fun (d : Program) event =>
               <[targetName event := VStr (targetValue event)]> d)
            edits draft.

(** The [key] each card's wrapper gets: [key={program.title}]. *)
Definition programKeys (ps : list Program) : list (option Value) :=
  map (fun program : Program => program !! "title") ps.

(** The key under which a validation error is stored. *)
Definition errorKey (verr : ValidationError) : option string :=
  match details verr with
  | [] => None
  | d :: _ =>
      Some (match path d with
            | [] => "undefined"
            | seg :: _ => propertyKey seg
            end)
  end.

Definition isRender (ev : Event) : bool :=
  match ev with
  | Render => true
  | _ => false
  end.

(** How many renders an execution asks for. *)
Definition renders (events : list Event) : nat :=
  length (List.filter isRender events).

(** A load that stores nothing: [getAll()] rejects, or resolves with a
    record that carries no timestamp. *)
Definition loadFails (outcome : GetAllOutcome) : bool :=
  match outcome with
  | Resolved snapshot => negb (forallb hasTimestamp snapshot)
  | Rejected _ => true
  end.

(** A validation error without details, and one whose path is empty. *)
Definition noDetails : ValidationError :=
  {| message := quoted "value" +:+ " is invalid"; details := [] |}.

Definition rootProblem : ValidationError :=
  {| message := quoted "value" +:+ " must be of type object";
     details :=
       [ {| path := [];
            detailMessage :=
              quoted "value" +:+ " must be of type object" |} ] |}.

(** A stored record without [createdAt]. *)
Definition undated : Program := <["title" := VStr "Cohort 0"]> ∅.

(* ================================================================== *)
(** * Properties *)
(* ================================================================== *)

(** Unfolds the monad and the setters in the goal, then reads the fields
    of the records that appear. *)
Ltac run_handler :=
  cbv [mbind M_bind mret M_ret bind ret throw tryCatch andFinally emit
       setState getState fresh updatePrograms updateLoadingStatus
       updateCreatingProgramStatus updateErrors updateNewProgram
       toggleModal awaitCreate firstPathKey onGetAllRejected
       onGetAllFinally];
  cbn [fst snd page log renderPending programs isLoading isCreatingProgram
       errors newProgram modalOpen].

(** ** Creation: the three ways [ProgramModel.create] can settle *)

Lemma addNewProgramHandler_created gateway scope w id :
  gateway (scopeNewProgram scope) = Created id ->
  addNewProgramHandler gateway scope w =
    (Normal tt,
     {| page :=
          {| programs :=
               scopePrograms scope
                 ++ [<["id" := VStr id]> (scopeNewProgram scope)];
             isLoading := isLoading (page w);
             isCreatingProgram := false;
             errors := ∅;
             newProgram := newProgram (page w);
             modalOpen := negb (modalOpen (page w)) |};
        log := log w ++ [PreventDefault; CallCreate (scopeNewProgram scope)];
        renderPending := true |}).
Proof.
  intros Hok. unfold addNewProgramHandler. run_handler. rewrite Hok.
  cbn. by rewrite !orb_true_r, <- app_assoc.
Qed.

Lemma addNewProgramHandler_other gateway scope w msg :
  gateway (scopeNewProgram scope) = CreateRejected (OtherError msg) ->
  addNewProgramHandler gateway scope w =
    (Normal tt,
     {| page :=
          {| programs := programs (page w);
             isLoading := isLoading (page w);
             isCreatingProgram := true;
             errors := errors (page w);
             newProgram := newProgram (page w);
             modalOpen := modalOpen (page w) |};
        log := log w ++ [PreventDefault; CallCreate (scopeNewProgram scope)];
        renderPending :=
          renderPending w
          || negb (Bool.eqb (isCreatingProgram (page w)) true) |}).
Proof.
  intros Hrej. unfold addNewProgramHandler. run_handler. rewrite Hrej.
  cbn. by rewrite <- app_assoc.
Qed.

(** After a validation failure everything but the error set is settled
    before [err.details[0]] is read. *)
Lemma addNewProgramHandler_invalid gateway scope w verr :
  gateway (scopeNewProgram scope) = CreateRejected (IsValidationError verr) ->
  let w' := snd (addNewProgramHandler gateway scope w) in
  programs (page w') = programs (page w)
  /\ isLoading (page w') = isLoading (page w)
  /\ isCreatingProgram (page w') = false
  /\ newProgram (page w') = scopeNewProgram scope
  /\ modalOpen (page w') = modalOpen (page w)
  /\ log w' = log w ++ [PreventDefault; CallCreate (scopeNewProgram scope)]
  /\ errors (page w') =
       match details verr with
       | [] => errors (page w)
       | d :: _ =>
           {[ match path d with
              | [] => "undefined"
              | seg :: _ => propertyKey seg
              end := replaceLeadingQuoted (message verr) ]}
       end.
Proof.
  intros Hrej. unfold addNewProgramHandler. run_handler. rewrite Hrej.
  destruct (details verr) as [|d ds]; cbn; rewrite <- app_assoc;
    repeat split; reflexivity.
Qed.

(** C1.  Submitting the form to a gateway whose [create] succeeds with
    identifier [id], the dialog being open and the form showing the
    current list: the handler completes, the dialog is closed, the
    submitting flag is cleared, the list is the old one followed by one
    entry, the draft with [id] attached and every other property as in the
    draft, and the error set is empty. *)
Theorem creation_success_closes_and_appends
    (gateway : Gateway) (scope : ModalScope) (w : World) (id : string) :
  gateway (scopeNewProgram scope) = Created id ->
  modalOpen (page w) = true ->
  scopePrograms scope = programs (page w) ->
  let draft := scopeNewProgram scope in
  let result := addNewProgramHandler gateway scope w in
  let st' := page (snd result) in
  fst result = Normal tt
  /\ modalOpen st' = false
  /\ isCreatingProgram st' = false
  /\ (exists created : Program,
        programs st' = programs (page w) ++ [created]
        /\ created !! "id" = Some (VStr id)
        /\ forall field, field <> "id" -> created !! field = draft !! field)
  /\ length (programs st') = S (length (programs (page w)))
  /\ errors st' = ∅.
Proof.
  intros Hok Hopen Hsame draft result st'. subst draft result st'.
  rewrite (addNewProgramHandler_created _ _ _ _ Hok). cbn.
  rewrite Hopen, Hsame. repeat split.
  - eexists. split; [reflexivity|]. split.
    + apply lookup_insert_eq.
    + intros field Hne. by apply lookup_insert_ne.
  - rewrite length_app. cbn. lia.
Qed.

Lemma creation_success_witness :
  let result :=
    addNewProgramHandler (fun _ => Created "abc123") cohort5Scope dialogOpen in
  fst result = Normal tt
  /\ modalOpen (page (snd result)) = false
  /\ isCreatingProgram (page (snd result)) = false
  /\ (exists created : Program,
        programs (page (snd result)) = programs (page dialogOpen) ++ [created]
        /\ created !! "id" = Some (VStr "abc123")
        /\ forall field, field <> "id" -> created !! field = cohort5 !! field)
  /\ length (programs (page (snd result))) = 1
  /\ errors (page (snd result)) = ∅.
Proof.
  apply (creation_success_closes_and_appends
           (fun _ => Created "abc123") cohort5Scope dialogOpen "abc123");
    reflexivity.
Defined.

(** C4.  When [create] fails with an error that is not a validation error,
    the handler completes without rethrowing, logs nothing, stores no
    error (the error set is the one before), leaves the list, the draft
    and the dialog as they were, and the submitting flag stays set. *)
Theorem other_failure_is_swallowed
    (gateway : Gateway) (scope : ModalScope) (w : World) (msg : string) :
  gateway (scopeNewProgram scope) = CreateRejected (OtherError msg) ->
  let result := addNewProgramHandler gateway scope w in
  let st' := page (snd result) in
  fst result = Normal tt
  /\ errors st' = errors (page w)
  /\ programs st' = programs (page w)
  /\ isCreatingProgram st' = true
  /\ newProgram st' = newProgram (page w)
  /\ modalOpen st' = modalOpen (page w)
  /\ log (snd result) =
       log w ++ [PreventDefault; CallCreate (scopeNewProgram scope)].
Proof.
  intros Hrej result st'. subst result st'.
  rewrite (addNewProgramHandler_other _ _ _ _ Hrej). cbn.
  repeat split.
Qed.

Lemma other_failure_witness :
  let result :=
    addNewProgramHandler (fun _ => CreateRejected (OtherError "offline"))
                         cohort5Scope dialogOpen in
  fst result = Normal tt
  /\ errors (page (snd result)) = errors (page dialogOpen)
  /\ programs (page (snd result)) = []
  /\ isCreatingProgram (page (snd result)) = true
  /\ newProgram (page (snd result)) = newProgram (page dialogOpen)
  /\ modalOpen (page (snd result)) = true
  /\ log (snd result) = [PreventDefault; CallCreate cohort5].
Proof.
  apply (other_failure_is_swallowed
           (fun _ => CreateRejected (OtherError "offline"))
           cohort5Scope dialogOpen "offline").
  reflexivity.
Defined.

(** C6.  When [create] fails with a validation error on draft [D], the
    draft kept in the state afterwards is [D], field by field, so the form
    built from that state starts from [D]; the dialog is not toggled, so
    an open dialog stays open and shows that form.  The inputs of that
    form get no value from it: each shows what was typed into it, whatever
    the draft holds. *)
Theorem validation_failure_retains_draft
    (gateway : Gateway) (scope : ModalScope) (w : World)
    (verr : ValidationError) :
  gateway (scopeNewProgram scope) = CreateRejected (IsValidationError verr) ->
  modalOpen (page w) = true ->
  let D := scopeNewProgram scope in
  let st' := page (snd (addNewProgramHandler gateway scope w)) in
  newProgram st' = D
  /\ scopeNewProgram (modalScope st') = D
  /\ (forall field, newProgram st' !! field = D !! field)
  /\ modalOpen st' = true
  /\ Modal st' = Some (getModalContent (modalScope st'))
  /\ (forall dom : Dom,
        Forall (fun input =>
                  shown dom input = default EmptyString (dom !! name input))
               (inputs (getModalContent (modalScope st')))).
Proof.
  intros Hrej Hopen D st'. subst D st'.
  destruct (addNewProgramHandler_invalid gateway scope w verr Hrej)
    as (_ & _ & _ & Hdraft & Hmodal & _).
  rewrite Hopen in Hmodal. repeat split; try assumption.
  - intros field. by rewrite Hdraft.
  - unfold Modal. by rewrite Hmodal.
  - intros dom. cbn [getModalContent inputs].
    repeat constructor; unfold shown; cbn [value defaultValue name];
      by destruct (dom !! _).
Qed.

Lemma validation_failure_retains_draft_witness :
  let st' :=
    page (snd (addNewProgramHandler
                 (fun _ => CreateRejected (IsValidationError titleEmpty))
                 cohort5Scope dialogOpen)) in
  newProgram st' = cohort5
  /\ scopeNewProgram (modalScope st') = cohort5
  /\ (forall field, newProgram st' !! field = cohort5 !! field)
  /\ modalOpen st' = true
  /\ Modal st' = Some (getModalContent (modalScope st'))
  /\ (forall dom : Dom,
        Forall (fun input =>
                  shown dom input = default EmptyString (dom !! name input))
               (inputs (getModalContent (modalScope st')))).
Proof.
  apply (validation_failure_retains_draft
           (fun _ => CreateRejected (IsValidationError titleEmpty))
           cohort5Scope dialogOpen titleEmpty); reflexivity.
Defined.

(** The dialog is opened and submitted with nothing typed; [create]
    rejects the empty title.  The draft kept is the initial one, with a
    duration of 2 weeks, while the duration input, which was given no
    value, shows nothing: what the dialog shows is not the draft. *)
Lemma visible_values_are_not_the_draft :
  let D := newProgram (page dialogOpen) in
  let st' :=
    page (snd (addNewProgramHandler
                 (fun _ => CreateRejected (IsValidationError titleEmpty))
                 (modalScope (page dialogOpen)) dialogOpen)) in
  newProgram st' = D
  /\ modalOpen st' = true
  /\ D !! "durationInWeeks" = Some (VNum 2)
  /\ ~ showsDraft ∅ (getModalContent (modalScope st')) D.
Proof.
  intros D st'. split; [reflexivity|]. split; [reflexivity|].
  split; [reflexivity|]. unfold showsDraft. intros H.
  apply Forall_cons in H as [_ H]. apply Forall_cons in H as [H _].
  vm_compute in H. discriminate.
Qed.

(** C9.  When [create] fails with a validation error, the list of
    programs after the handler is the list before it. *)
Theorem validation_failure_leaves_list
    (gateway : Gateway) (scope : ModalScope) (w : World)
    (verr : ValidationError) :
  gateway (scopeNewProgram scope) = CreateRejected (IsValidationError verr) ->
  programs (page (snd (addNewProgramHandler gateway scope w)))
  = programs (page w).
Proof.
  intros Hrej.
  by destruct (addNewProgramHandler_invalid gateway scope w verr Hrej)
    as (Hlist & _).
Qed.

Lemma validation_failure_leaves_list_witness :
  programs (page (snd (addNewProgramHandler
                         (fun _ => CreateRejected (IsValidationError twoProblems))
                         cohort5Scope twoLoaded)))
  = programs (page twoLoaded).
Proof.
  apply (validation_failure_leaves_list
           (fun _ => CreateRejected (IsValidationError twoProblems))
           cohort5Scope twoLoaded twoProblems).
  reflexivity.
Defined.

(** ** The change handler and the form *)

(** C8.  A change event naming field [f] with value [v] leaves the draft
    with [v] at [f] and every other field as it was.  The handler touches
    nothing else: the other values of the form's scope are kept, and the
    world is the same afterwards, so no state cell (errors included) is
    written and no collaborator is called. *)
Theorem change_updates_named_field_only
    (event : ChangeEvent) (scope : ModalScope) (w : World) :
  exists scope',
    newProgramOnChangeHandler event scope w = (Normal scope', w)
    /\ scopeNewProgram scope' !! targetName event
       = Some (VStr (targetValue event))
    /\ (forall field,
          field <> targetName event ->
          scopeNewProgram scope' !! field = scopeNewProgram scope !! field)
    /\ scopeErrors scope' = scopeErrors scope
    /\ scopePrograms scope' = scopePrograms scope
    /\ scopeIsCreatingProgram scope' = scopeIsCreatingProgram scope.
Proof.
  eexists. split; [reflexivity|]. cbn. repeat split.
  - apply lookup_insert_eq.
  - intros field Hne. by apply lookup_insert_ne.
Qed.

Lemma change_updates_named_field_only_witness :
  exists scope',
    newProgramOnChangeHandler
      {| targetName := "title"; targetValue := "Cohort 6" |}
      cohort5Scope dialogOpen = (Normal scope', dialogOpen)
    /\ scopeNewProgram scope' !! "title" = Some (VStr "Cohort 6")
    /\ scopeNewProgram scope' !! "durationInWeeks" = Some (VStr "6")
    /\ scopeErrors scope' = scopeErrors cohort5Scope.
Proof.
  destruct (change_updates_named_field_only
              {| targetName := "title"; targetValue := "Cohort 6" |}
              cohort5Scope dialogOpen)
    as (scope' & Hrun & Hset & Hkeep & Herr & _).
  exists scope'. split; [exact Hrun|]. split; [exact Hset|].
  split; [|exact Herr].
  rewrite (Hkeep "durationInWeeks"); [reflexivity | discriminate].
Defined.

Lemma length_eqb_0_nil {A} (l : list A) :
  Nat.eqb (length l) 0 = true <-> l = [].
Proof. destruct l; cbn; split; congruence. Qed.

(** The dialog delivers change events for the title and the duration
    only: these are the inputs wired to the handler. *)
Lemma deliverable_names st event :
  deliverable (Modal st) event = true ->
  targetName event = "title" \/ targetName event = "durationInWeeks".
Proof.
  unfold deliverable, Modal. destruct (modalOpen st); [|discriminate].
  cbn [existsb getModalContent inputs onChange name andb].
  rewrite !orb_true_iff.
  intros [H|[H|[H|H]]]; try discriminate;
    apply String.eqb_eq in H; rewrite <- H; auto.
Qed.

(** Edits that avoid a field leave it as it was; no edit changes the list
    the form was built with, or the world. *)
Lemma typeInto_keeps (allowed : ChangeEvent -> bool) (field : string) edits :
  forall scope w,
  forallb allowed edits = true ->
  (forall event, allowed event = true -> targetName event <> field) ->
  exists scope',
    typeInto edits scope w = (Normal scope', w)
    /\ scopeNewProgram scope' !! field = scopeNewProgram scope !! field
    /\ scopePrograms scope' = scopePrograms scope.
Proof.
  induction edits as [|event rest IH]; intros scope w Hall Hform.
  - eexists. repeat split; reflexivity.
  - cbn in Hall. apply andb_true_iff in Hall as [Hev Hrest].
    cbn [typeInto]. unfold newProgramOnChangeHandler.
    cbv [mbind M_bind bind ret].
    destruct (IH {| scopePrograms := scopePrograms scope;
                    scopeErrors := scopeErrors scope;
                    scopeNewProgram :=
                      <[targetName event := VStr (targetValue event)]>
                        (scopeNewProgram scope);
                    scopeIsCreatingProgram := scopeIsCreatingProgram scope |}
                 w Hrest Hform) as (scope' & Hrun & Hkeep & Hlist).
    exists scope'. split; [exact Hrun|]. split; [|exact Hlist].
    rewrite Hkeep. cbn. apply lookup_insert_ne. by apply Hform.
Qed.

(** C10.  In the form built from a state, the prerequisite input is
    disabled exactly when the list of programs is empty, and enabled
    exactly when it is not.  With an empty list no prerequisite is
    entered: the input is disabled, and no sequence of change events the
    dialog can deliver alters the draft's prerequisite. *)
Theorem prerequisite_disabled_iff_no_programs (st : PageState) :
  let form := getModalContent (modalScope st) in
  exists input,
    inputNamed "prerequisiteProgramId" form = Some input
    /\ (disabled input = Some true <-> programs st = [])
    /\ (disabled input = Some false <-> programs st <> [])
    /\ forall edits w,
         forallb (deliverable (Modal st)) edits = true ->
         exists scope',
           typeInto edits (modalScope st) w = (Normal scope', w)
           /\ scopeNewProgram scope' !! "prerequisiteProgramId"
              = newProgram st !! "prerequisiteProgramId".
Proof.
  intros form. eexists. split; [reflexivity|]. cbn.
  split; [|split].
  - rewrite <- length_eqb_0_nil. split; congruence.
  - destruct (programs st); cbn; split; congruence.
  - intros edits w Hall.
    destruct (typeInto_keeps (deliverable (Modal st)) "prerequisiteProgramId"
                edits (modalScope st) w Hall) as (scope' & Hrun & Hkeep & _).
    + intros event Hev.
      destruct (deliverable_names st event Hev) as [-> | ->]; discriminate.
    + exists scope'. by split.
Qed.

Lemma prerequisite_disabled_witness :
  exists input,
    inputNamed "prerequisiteProgramId"
               (getModalContent (modalScope (page dialogOpen))) = Some input
    /\ disabled input = Some true
    /\ exists scope',
         typeInto [ {| targetName := "title"; targetValue := "Cohort 5" |};
                    {| targetName := "durationInWeeks"; targetValue := "6" |} ]
                  (modalScope (page dialogOpen)) dialogOpen
         = (Normal scope', dialogOpen)
         /\ scopeNewProgram scope' !! "prerequisiteProgramId"
            = Some (VStr EmptyString).
Proof.
  destruct (prerequisite_disabled_iff_no_programs (page dialogOpen))
    as (input & Hfind & Hdis & _ & Hedits).
  exists input. split; [exact Hfind|]. split; [by apply Hdis|].
  destruct (Hedits
              [ {| targetName := "title"; targetValue := "Cohort 5" |};
                {| targetName := "durationInWeeks"; targetValue := "6" |} ]
              dialogOpen eq_refl) as (scope' & Hrun & Hkeep).
  exists scope'. split; [exact Hrun|]. rewrite Hkeep. reflexivity.
Defined.

(** ** The displayed error *)

Lemma append_cons (x : ascii) (a b : string) :
  String x a +:+ b = String x (a +:+ b).
Proof. reflexivity. Qed.

Lemma append_empty (b : string) : EmptyString +:+ b = b.
Proof. reflexivity. Qed.

Lemma string_app_assoc (a b c : string) : (a +:+ b) +:+ c = a +:+ (b +:+ c).
Proof.
  induction a as [|x a IH]; [reflexivity|].
  by rewrite !append_cons, IH.
Qed.

(** *** The byte scan finds the line terminators *)

Lemma startsWith_terminator (t x : string) :
  t ∈ lineTerminators -> startsWithLineTerminator (t +:+ x) = true.
Proof.
  intros H. apply list_elem_of_In in H. cbn in H.
  destruct H as [<-|[<-|[<-|[<-|[]]]]]; reflexivity.
Qed.

Lemma startsWith_inv (s : string) :
  startsWithLineTerminator s = true ->
  exists t post, t ∈ lineTerminators /\ s = t +:+ post.
Proof.
  destruct s as [|c rest]; [done|]. cbn [startsWithLineTerminator].
  rewrite !orb_true_iff, andb_true_iff. intros [[H|H]|[H1 H2]].
  - apply Ascii.eqb_eq in H as ->.
    exists (String "010" EmptyString), rest. split; [|done].
    unfold lineTerminators. repeat constructor.
  - apply Ascii.eqb_eq in H as ->.
    exists (String "013" EmptyString), rest. split; [|done].
    unfold lineTerminators. repeat constructor.
  - destruct rest as [|c2 [|c3 rest]]; try done.
    apply andb_true_iff in H2 as [H2 H3].
    apply Ascii.eqb_eq in H1 as ->. apply Ascii.eqb_eq in H2 as ->.
    apply orb_true_iff in H3 as [H3|H3]; apply Ascii.eqb_eq in H3 as ->.
    + exists (String "226" (String "128" (String "168" EmptyString))), rest.
      split; [|done]. unfold lineTerminators. repeat constructor.
    + exists (String "226" (String "128" (String "169" EmptyString))), rest.
      split; [|done]. unfold lineTerminators. repeat constructor.
Qed.

Lemma hasLineTerminator_cons (c : ascii) (s : string) :
  hasLineTerminator s -> hasLineTerminator (String c s).
Proof.
  intros (pre & t & post & Ht & ->). exists (String c pre), t, post. by split.
Qed.

Lemma clearBefore_drop (pre x tail : string) :
  clearBefore (pre +:+ x) tail = true -> clearBefore x tail = true.
Proof.
  induction pre as [|c pre IH]; [done|].
  rewrite append_cons. cbn [clearBefore]. intros H.
  apply andb_true_iff in H as [_ H]. by apply IH.
Qed.

(** A body that the scan passes holds no line terminator... *)
Lemma clearBefore_sound (body tail : string) :
  clearBefore body tail = true -> ~ hasLineTerminator body.
Proof.
  intros H (pre & t & post & Ht & ->).
  apply clearBefore_drop in H.
  pose proof (startsWith_terminator t (post +:+ tail) Ht) as Hs.
  rewrite <- string_app_assoc in Hs.
  destruct (t +:+ post) as [|c x] eqn:E.
  - apply list_elem_of_In in Ht. cbn in Ht.
    destruct Ht as [<-|[<-|[<-|[<-|[]]]]]; discriminate.
  - cbn [clearBefore] in H. rewrite Hs in H. discriminate.
Qed.

(** ... and conversely when a double quote follows the body: no line
    terminator can begin in the body and run over the quote. *)
Lemma clearBefore_complete (body rest : string) :
  ~ hasLineTerminator body -> clearBefore body (String dquote rest) = true.
Proof.
  induction body as [|c body IH]; intros Hno; [done|].
  cbn [clearBefore]. apply andb_true_iff. split.
  - apply negb_true_iff.
    destruct (startsWithLineTerminator (String c body +:+ String dquote rest))
      eqn:Hs; [|done].
    exfalso. apply Hno.
    destruct (startsWith_inv _ Hs) as (t & post & Ht & Heq).
    pose proof Ht as Ht'. apply list_elem_of_In in Ht'. cbn in Ht'.
    rewrite append_cons in Heq.
    destruct Ht' as [<-|[<-|[<-|[<-|[]]]]].
    + injection Heq as -> _.
      eexists EmptyString, _, body. split; [exact Ht | reflexivity].
    + injection Heq as -> _.
      eexists EmptyString, _, body. split; [exact Ht | reflexivity].
    + injection Heq as -> Heq.
      destruct body as [|c2 body]; [discriminate|].
      rewrite append_cons in Heq. injection Heq as -> Heq.
      destruct body as [|c3 body]; [discriminate|].
      rewrite append_cons in Heq. injection Heq as -> _.
      eexists EmptyString, _, body. split; [exact Ht | reflexivity].
    + injection Heq as -> Heq.
      destruct body as [|c2 body]; [discriminate|].
      rewrite append_cons in Heq. injection Heq as -> Heq.
      destruct body as [|c3 body]; [discriminate|].
      rewrite append_cons in Heq. injection Heq as -> _.
      eexists EmptyString, _, body. split; [exact Ht | reflexivity].
  - apply IH. intros H. apply Hno. by apply hasLineTerminator_cons.
Qed.

(** A quote that is followed by no further quote on its line is the one
    the greedy [.+] stops at, whatever precedes it on the line. *)
Lemma afterLastQuote_closing (body rest : string) :
  clearBefore body (String dquote rest) = true ->
  afterLastQuote rest = None ->
  afterLastQuote (body +:+ String dquote rest) = Some rest.
Proof.
  intros Hbody Hrest. induction body as [|c body IH].
  - rewrite append_empty. cbn [afterLastQuote].
    change (startsWithLineTerminator (String dquote rest)) with false.
    by rewrite Hrest.
  - cbn [clearBefore] in Hbody.
    apply andb_true_iff in Hbody as [Hc Hbody].
    apply negb_true_iff in Hc. rewrite append_cons in Hc |- *.
    cbn [afterLastQuote]. by rewrite Hc, (IH Hbody).
Qed.

Lemma afterLastQuote_Some (s rest : string) :
  afterLastQuote s = Some rest ->
  exists body, s = body +:+ String dquote rest
               /\ clearBefore body (String dquote rest) = true
               /\ afterLastQuote rest = None.
Proof.
  revert rest. induction s as [|c s IH]; intros rest; [done|].
  cbn [afterLastQuote].
  destruct (startsWithLineTerminator (String c s)) eqn:Hc; [done|].
  destruct (afterLastQuote s) as [r|] eqn:Hs.
  - intros [= ->]. destruct (IH rest eq_refl) as (body & -> & Hbody & Hrest).
    exists (String c body). rewrite append_cons. cbn [clearBefore].
    by rewrite append_cons, Hc, Hbody.
  - destruct (Ascii.eqb c dquote) eqn:Hq; [|done]. intros [= ->].
    apply Ascii.eqb_eq in Hq as ->. exists EmptyString.
    by rewrite append_empty.
Qed.

(** A quote with no line terminator before it is reached by the scan. *)
Lemma afterLastQuote_reaches (pre post : string) :
  clearBefore pre (String dquote post) = true ->
  afterLastQuote (pre +:+ String dquote post) <> None.
Proof.
  induction pre as [|c pre IH]; intros Hpre.
  - rewrite append_empty. cbn [afterLastQuote].
    change (startsWithLineTerminator (String dquote post)) with false.
    by destruct (afterLastQuote post).
  - cbn [clearBefore] in Hpre. apply andb_true_iff in Hpre as [Hc Hpre].
    apply negb_true_iff in Hc. rewrite append_cons in Hc |- *.
    cbn [afterLastQuote]. rewrite Hc.
    specialize (IH Hpre).
    by destruct (afterLastQuote (pre +:+ String dquote post)).
Qed.

(** The scan finds nothing exactly when no double quote stands on the
    first line. *)
Lemma afterLastQuote_None (s : string) :
  afterLastQuote s = None <-> ~ quoteOnFirstLine s.
Proof.
  split.
  - intros Hnone (pre & post & Hpre & ->).
    apply (afterLastQuote_reaches pre post); [|exact Hnone].
    by apply clearBefore_complete.
  - intros Hno. destruct (afterLastQuote s) as [rest|] eqn:Hs; [|done].
    exfalso. apply Hno.
    destruct (afterLastQuote_Some _ _ Hs) as (body & -> & Hbody & _).
    exists body, rest. split; [|done]. by eapply clearBefore_sound.
Qed.

(** The pattern matches what the statements describe: a quoted body that
    is not empty and holds no line terminator, followed by a rest with no
    further quote on its first line. *)
Lemma matchLeadingQuoted_Some (s rest : string) :
  matchLeadingQuoted s = Some rest ->
  exists body,
    body <> EmptyString
    /\ ~ hasLineTerminator body
    /\ ~ quoteOnFirstLine rest
    /\ s = quoted body +:+ rest.
Proof.
  unfold matchLeadingQuoted. destruct s as [|q [|c s]]; try done.
  destruct (Ascii.eqb q dquote) eqn:Hq; [|done].
  destruct (startsWithLineTerminator (String c s)) eqn:Hc; [done|].
  cbn [negb andb]. intros Hm. apply Ascii.eqb_eq in Hq as ->.
  destruct (afterLastQuote_Some _ _ Hm) as (body & -> & Hbody & Hrest).
  exists (String c body). split; [done|]. split; [|split].
  - apply (clearBefore_sound _ (String dquote rest)). cbn [clearBefore].
    by rewrite append_cons, Hc, Hbody.
  - by apply afterLastQuote_None.
  - unfold quoted.
    by rewrite !append_cons, string_app_assoc, append_cons, append_empty.
Qed.

(** A quoted body is matched up to the last quote the scan reaches, which
    may lie beyond the body's closing quote. *)
Lemma matchLeadingQuoted_reaches (body rest : string) :
  body <> EmptyString ->
  ~ hasLineTerminator body ->
  matchLeadingQuoted (quoted body +:+ rest)
  = afterLastQuote (match body with
                    | EmptyString => EmptyString
                    | String _ body' => body' +:+ String dquote rest
                    end)
  /\ matchLeadingQuoted (quoted body +:+ rest) <> None.
Proof.
  intros Hne Hbody. destruct body as [|c body]; [done|].
  apply (clearBefore_complete _ rest) in Hbody.
  cbn [clearBefore] in Hbody. apply andb_true_iff in Hbody as [Hc Hbody].
  apply negb_true_iff in Hc. rewrite append_cons in Hc.
  unfold matchLeadingQuoted, quoted.
  rewrite !append_cons, string_app_assoc, append_cons, append_empty, Hc.
  change (Ascii.eqb dquote dquote && negb false) with true. cbv iota.
  split; [done|]. by apply afterLastQuote_reaches.
Qed.

Lemma matchLeadingQuoted_quoted (body rest : string) :
  body <> EmptyString ->
  ~ hasLineTerminator body ->
  ~ quoteOnFirstLine rest ->
  matchLeadingQuoted (quoted body +:+ rest) = Some rest.
Proof.
  intros Hne Hbody Hrest.
  destruct (matchLeadingQuoted_reaches body rest Hne Hbody) as [-> _].
  destruct body as [|c body]; [done|].
  apply (clearBefore_complete _ rest) in Hbody.
  cbn [clearBefore] in Hbody. apply andb_true_iff in Hbody as [_ Hbody].
  apply afterLastQuote_closing; [done|]. by apply afterLastQuote_None.
Qed.

(** The replaced prefix runs from the opening quote to the last quote of
    the line: [body] may itself contain quotes. *)
Lemma replaceLeadingQuoted_greedy (body rest : string) :
  body <> EmptyString ->
  ~ hasLineTerminator body ->
  ~ quoteOnFirstLine rest ->
  replaceLeadingQuoted (quoted body +:+ rest) = "Field" +:+ rest.
Proof.
  intros Hne Hbody Hrest. unfold replaceLeadingQuoted.
  by rewrite (matchLeadingQuoted_quoted body rest Hne Hbody Hrest).
Qed.

(** The message of the running example: one quoted name, then plain text. *)
Example field_is_required :
  replaceLeadingQuoted (quoted "fieldName" +:+ " is required")
  = "Field is required".
Proof. reflexivity. Qed.

(** A string that does not start with a quote is left as it is. *)
Lemma replaceLeadingQuoted_unquoted (c : ascii) (s : string) :
  c <> dquote -> replaceLeadingQuoted (String c s) = String c s.
Proof.
  intros Hc. unfold replaceLeadingQuoted, matchLeadingQuoted.
  apply Ascii.eqb_neq in Hc. destruct s; [reflexivity|]. by rewrite Hc.
Qed.

(** On a validation error with at least one problem, the error set
    becomes a single pair, whatever it held: the key of the first segment
    of the first problem's path, with the message after the replacement. *)
Lemma validation_failure_stores_one_error
    (gateway : Gateway) (scope : ModalScope) (w : World)
    (verr : ValidationError) (d : Detail) (ds : list Detail)
    (seg : PathSegment) (segs : list PathSegment) :
  gateway (scopeNewProgram scope) = CreateRejected (IsValidationError verr) ->
  details verr = d :: ds ->
  path d = seg :: segs ->
  let st' := page (snd (addNewProgramHandler gateway scope w)) in
  errors st' = {[ propertyKey seg := replaceLeadingQuoted (message verr) ]}
  /\ size (errors st') = 1
  /\ isCreatingProgram st' = false.
Proof.
  intros Hrej Hd Hp st'. subst st'.
  destruct (addNewProgramHandler_invalid gateway scope w verr Hrej)
    as (_ & _ & Hflag & _ & _ & _ & Herr).
  rewrite Hd, Hp in Herr. rewrite Herr. split; [reflexivity|].
  split; [apply map_size_singleton | exact Hflag].
Qed.

(** C2.  On [twoProblems] the handler stores one pair under the first
    problem's field, [title], but its message is [Field must be a number]:
    the replacement has removed everything up to the last quoted name, the
    first problem's text included, and not the leading quoted name only. *)
Theorem two_problems_keep_last_message_only :
  let st' :=
    page (snd (addNewProgramHandler
                 (fun _ => CreateRejected (IsValidationError twoProblems))
                 cohort5Scope dialogOpen)) in
  errors st' = {[ "title" := "Field must be a number" ]}
  /\ errors st' <>
       {[ "title" := "Field is not allowed to be empty. "
                       +:+ quoted "durationInWeeks" +:+ " must be a number" ]}.
Proof.
  intros st'.
  assert (Herr : errors st' = {[ "title" := "Field must be a number" ]}).
  { subst st'.
    destruct (validation_failure_stores_one_error
                (fun _ => CreateRejected (IsValidationError twoProblems))
                cohort5Scope dialogOpen twoProblems _ _ _ _
                eq_refl eq_refl eq_refl) as [Herr _].
    exact Herr. }
  split; [exact Herr|]. rewrite Herr. intros Heq.
  apply (f_equal (fun m : FormErrors => m !! "title")) in Heq.
  rewrite !lookup_singleton_eq in Heq. discriminate.
Qed.

(** ** Loading the list *)

Lemma convertCreatedAt_timestamp data w :
  hasTimestamp data = true ->
  exists p, convertCreatedAt data w = (Normal p, w) /\ converted data p.
Proof.
  unfold hasTimestamp, convertCreatedAt, converted. intros H.
  destruct (data !! "createdAt") as [[| | |t]|] eqn:E; try discriminate.
  eexists. split; [reflexivity|].
  exists t, (newDateFrom (toDate t)). by repeat split.
Qed.

Lemma convertCreatedAt_other data w :
  hasTimestamp data = false ->
  exists msg, convertCreatedAt data w = (Throw (OtherError msg), w).
Proof.
  unfold hasTimestamp, convertCreatedAt. intros H.
  destruct (data !! "createdAt") as [[| | |t]|]; try discriminate;
    eexists; reflexivity.
Qed.

Lemma forEachProgram_converts snapshot : forall existing w,
  forallb hasTimestamp snapshot = true ->
  exists list,
    forEachProgram snapshot existing w = (Normal (existing ++ list), w)
    /\ Forall2 converted snapshot list.
Proof.
  induction snapshot as [|data rest IH]; intros existing w Hall.
  - exists []. rewrite app_nil_r. split; [reflexivity | constructor].
  - cbn [forallb] in Hall. apply andb_true_iff in Hall as [Hd Hrest].
    destruct (convertCreatedAt_timestamp data w Hd) as (p & Hrun & Hp).
    destruct (IH (existing ++ [p]) w Hrest) as (list & Hrec & Hlist).
    exists (p :: list). split; [|by constructor].
    cbn [forEachProgram]. cbv [mbind M_bind bind]. rewrite Hrun, Hrec.
    by rewrite <- app_assoc.
Qed.

Lemma forEachProgram_throws snapshot : forall existing w,
  forallb hasTimestamp snapshot = false ->
  exists msg,
    forEachProgram snapshot existing w = (Throw (OtherError msg), w).
Proof.
  induction snapshot as [|data rest IH]; intros existing w Hsome.
  - discriminate.
  - cbn [forEachProgram]. cbv [mbind M_bind bind].
    destruct (hasTimestamp data) eqn:Hd.
    + destruct (convertCreatedAt_timestamp data w Hd) as (p & Hrun & _).
      rewrite Hrun. apply IH. cbn [forallb] in Hsome.
      by rewrite Hd in Hsome.
    + destruct (convertCreatedAt_other data w Hd) as (msg & Hrun).
      rewrite Hrun. eauto.
Qed.

(** C5.  Whatever the outcome of [getAll()], the loading flag is cleared
    when the chain has run.  If it resolves and every stored record carries
    a timestamp, the list becomes the records in order, each with its
    timestamp converted to a [Date] of the same time value and its other
    fields kept, in place of whatever the list held, and nothing is
    logged.  If it rejects, the error's message is logged and
    the list is left as it was, so a list that was empty remains empty; the
    same holds when a stored record carries no timestamp, as the conversion
    then throws. *)
Theorem load_outcomes (w : World) (outcome : GetAllOutcome) :
  let w' := snd (loadChain outcome w) in
  isLoading (page w') = false
  /\ match outcome with
     | Resolved snapshot =>
         (forallb hasTimestamp snapshot = true ->
          exists list,
            Forall2 converted snapshot list
            /\ programs (page w') = list
            /\ log w' = log w)
         /\ (forallb hasTimestamp snapshot = false ->
             programs (page w') = programs (page w)
             /\ exists msg, log w' = log w ++ [ConsoleLog msg])
     | Rejected err =>
         programs (page w') = programs (page w)
         /\ log w' = log w ++ [ConsoleLog (errMessage err)]
         /\ (programs (page w) = [] -> programs (page w') = [])
     end.
Proof.
  intros w'. subst w'. unfold loadChain, getAllSettled.
  destruct outcome as [snapshot|err].
  - destruct (forallb hasTimestamp snapshot) eqn:Hall.
    + destruct (forEachProgram_converts snapshot [] w Hall)
        as (list & Hrun & Hlist).
      unfold onGetAllResolved. run_handler. rewrite Hrun. cbn.
      split; [reflexivity|]. split; [|discriminate].
      intros _. exists list. repeat split; assumption.
    + destruct (forEachProgram_throws snapshot [] w Hall) as (msg & Hrun).
      unfold onGetAllResolved. run_handler. rewrite Hrun. cbn.
      split; [reflexivity|]. split; [discriminate|].
      intros _. split; [reflexivity|]. by exists msg.
  - run_handler. repeat split. intros Hempty. exact Hempty.
Qed.

Lemma load_outcomes_witness :
  (let w' := snd (loadChain (Resolved [stored "Cohort 1" 1000])
                            (mount (NewDate 0))) in
   isLoading (page w') = false
   /\ exists list,
        Forall2 converted [stored "Cohort 1" 1000] list
        /\ programs (page w') = list
        /\ log w' = [])
  /\ (let w' := snd (loadChain (Rejected (OtherError "offline"))
                               (mount (NewDate 0))) in
      isLoading (page w') = false
      /\ programs (page w') = []
      /\ log w' = [ConsoleLog "offline"]).
Proof.
  split.
  - destruct (load_outcomes (mount (NewDate 0))
                            (Resolved [stored "Cohort 1" 1000]))
      as (Hflag & Hok & _).
    split; [exact Hflag|]. apply Hok. reflexivity.
  - destruct (load_outcomes (mount (NewDate 0))
                            (Rejected (OtherError "offline")))
      as (Hflag & _ & Hlog & Hempty).
    split; [exact Hflag|]. split; [apply Hempty; reflexivity | exact Hlog].
Defined.

(** ** The view *)

(** Building a card neither reads nor writes the world. *)
Lemma card_pure (p : Program) :
  exists c, forall w, card p w = (c, w).
Proof.
  unfold card. destruct (p !! "createdAt") as [[| | |]|];
    eexists; intros w; reflexivity.
Qed.

Lemma mapCards_pure (ps : list Program) :
  exists c, forall w, mapCards ps w = (c, w).
Proof.
  induction ps as [|p ps [cs Hcs]].
  - eexists. intros w. reflexivity.
  - destruct (card_pure p) as [[c|e] Hc].
    + destruct cs as [cs|e].
      * exists (Normal (c :: cs)). intros w. cbn [mapCards].
        cbv [mbind M_bind bind]. by rewrite Hc, Hcs.
      * exists (Throw e). intros w. cbn [mapCards].
        cbv [mbind M_bind bind]. by rewrite Hc, Hcs.
    + exists (Throw e). intros w. cbn [mapCards].
      cbv [mbind M_bind bind]. by rewrite Hc.
Qed.

Lemma mapCards_dates (ps : list Program) (w : World) :
  forallb hasDate ps = true ->
  exists cards, mapCards ps w = (Normal cards, w) /\ Forall2 shows ps cards.
Proof.
  induction ps as [|p ps IH]; intros Hall.
  - exists []. split; [reflexivity | constructor].
  - cbn [forallb] in Hall. apply andb_true_iff in Hall as [Hp Hps].
    destruct (IH Hps) as (cards & Hrun & Hcards).
    unfold hasDate in Hp.
    destruct (p !! "createdAt") as [[| |d|]|] eqn:E; try discriminate.
    eexists. split.
    + cbn [mapCards]. unfold card. rewrite E.
      cbv [mbind M_bind bind ret]. rewrite Hrun. reflexivity.
    + constructor; [|exact Hcards]. exists d. by split.
Qed.

(** A render of a well-dated page produces a view. *)
Lemma ProgramsPage_total (w : World) :
  forallb hasDate (programs (page w)) = true ->
  exists v, fst (ProgramsPage w) = Normal v.
Proof.
  intros Hdates. unfold ProgramsPage. run_handler.
  destruct (isLoading (page w)); [eexists; reflexivity|].
  destruct (Nat.eqb (length (programs (page w))) 0 && negb false);
    [eexists; reflexivity|].
  destruct (mapCards_dates (programs (page w)) w Hdates) as (cards & -> & _).
  eexists. reflexivity.
Qed.

(** ** Executions *)

Lemma count_getAll_app (l1 l2 : list Effect) :
  count_occ Effect_eq_dec (l1 ++ l2) CallGetAll
  = count_occ Effect_eq_dec l1 CallGetAll
    + count_occ Effect_eq_dec l2 CallGetAll.
Proof. apply count_occ_app. Qed.

Lemma count_getAll_submit (draft : Program) :
  count_occ Effect_eq_dec [PreventDefault; CallCreate draft] CallGetAll = 0.
Proof.
  rewrite count_occ_cons_neq by discriminate.
  rewrite count_occ_cons_neq by discriminate. reflexivity.
Qed.

Lemma converted_hasDate data p : converted data p -> hasDate p = true.
Proof.
  intros (t & d & _ & _ & ->). unfold hasDate. by rewrite lookup_insert_eq.
Qed.

Lemma converted_all_dated snapshot list :
  Forall2 converted snapshot list -> forallb hasDate list = true.
Proof.
  induction 1 as [|data p snapshot list Hp _ IH]; [reflexivity|].
  cbn [forallb]. by rewrite (converted_hasDate _ _ Hp), IH.
Qed.

Lemma mounted_wellDated now : wellDated (initialState now).
Proof. split; reflexivity. Qed.

(** The submit handler neither requests the list nor touches the loading
    flag. *)
Lemma addNewProgramHandler_no_reload gateway scope w :
  let w' := snd (addNewProgramHandler gateway scope w) in
  isLoading (page w') = isLoading (page w)
  /\ getAllCalls w' = getAllCalls w.
Proof.
  intros w'. subst w'. unfold getAllCalls.
  destruct (gateway (scopeNewProgram scope)) as [id|[verr|msg]] eqn:Hgw.
  - rewrite (addNewProgramHandler_created _ _ _ _ Hgw). cbn.
    rewrite count_getAll_app, count_getAll_submit. split; [reflexivity | lia].
  - destruct (addNewProgramHandler_invalid gateway scope w verr Hgw)
      as (_ & Hload & _ & _ & _ & Hlog & _).
    rewrite Hload, Hlog, count_getAll_app, count_getAll_submit.
    split; [reflexivity | lia].
  - rewrite (addNewProgramHandler_other _ _ _ _ Hgw). cbn.
    rewrite count_getAll_app, count_getAll_submit. split; [reflexivity | lia].
Qed.

(** It keeps the page well dated when the draft it submits has its date
    and the form shows the current list. *)
Lemma addNewProgramHandler_wellDated gateway scope w :
  wellDated (page w) ->
  hasDate (scopeNewProgram scope) = true ->
  scopePrograms scope = programs (page w) ->
  wellDated (page (snd (addNewProgramHandler gateway scope w))).
Proof.
  intros [Hlist Hdraft] Hscope Hsame. unfold wellDated.
  destruct (gateway (scopeNewProgram scope)) as [id|[verr|msg]] eqn:Hgw.
  - rewrite (addNewProgramHandler_created _ _ _ _ Hgw). cbn.
    rewrite Hsame, forallb_app, Hlist. cbn. split; [|exact Hdraft].
    unfold hasDate in *. rewrite lookup_insert_ne by discriminate.
    by rewrite Hscope.
  - destruct (addNewProgramHandler_invalid gateway scope w verr Hgw)
      as (-> & _ & _ & -> & _).
    by split.
  - rewrite (addNewProgramHandler_other _ _ _ _ Hgw). cbn. by split.
Qed.

Lemma typeInto_pure edits : forall scope w,
  exists scope', typeInto edits scope w = (Normal scope', w).
Proof.
  induction edits as [|event rest IH]; intros scope w.
  - eexists. reflexivity.
  - cbn [typeInto]. unfold newProgramOnChangeHandler.
    cbv [mbind M_bind bind ret]. apply IH.
Qed.

(** The [then] and [catch] callbacks do not request the list either, and
    leave the loading flag to the [finally] callback; they keep the draft,
    and keep the list or replace it by converted records. *)
Lemma getAllSettled_frame outcome w :
  let w' := snd (getAllSettled outcome w) in
  isLoading (page w') = isLoading (page w)
  /\ getAllCalls w' = getAllCalls w
  /\ newProgram (page w') = newProgram (page w)
  /\ (programs (page w') = programs (page w)
      \/ forallb hasDate (programs (page w')) = true).
Proof.
  intros w'. subst w'. unfold getAllSettled, getAllCalls.
  assert (Hlog : forall msg,
            count_occ Effect_eq_dec (log w ++ [ConsoleLog msg]) CallGetAll
            = count_occ Effect_eq_dec (log w) CallGetAll).
  { intros msg. rewrite count_getAll_app.
    rewrite count_occ_cons_neq by discriminate. cbn. lia. }
  destruct outcome as [snapshot|err].
  - destruct (forallb hasTimestamp snapshot) eqn:Hall.
    + destruct (forEachProgram_converts snapshot [] w Hall)
        as (list & Hrun & Hlist).
      unfold onGetAllResolved. run_handler. rewrite Hrun. cbn.
      repeat split. right. by eapply converted_all_dated.
    + destruct (forEachProgram_throws snapshot [] w Hall) as (msg & Hrun).
      unfold onGetAllResolved. run_handler. rewrite Hrun. cbn.
      repeat split; [apply Hlog | by left].
  - run_handler. repeat split; [apply Hlog | by left].
Qed.

(** A render requests the list exactly when the loading flag is set, and
    changes no state cell. *)
Lemma ProgramsPage_requests w v w' :
  ProgramsPage w = (Normal v, w') ->
  page w' = page w
  /\ getAllCalls w' = getAllCalls w + (if isLoading (page w) then 1 else 0).
Proof.
  unfold ProgramsPage, getAllCalls. run_handler.
  destruct (isLoading (page w)).
  - intros [= _ <-]. cbn. rewrite count_getAll_app. cbn. by split.
  - destruct (Nat.eqb (length (programs (page w))) 0 && negb false).
    + intros [= _ <-]. split; [reflexivity | lia].
    + destruct (mapCards_pure (programs (page w))) as [[cards|e] Hc];
        rewrite Hc; [|discriminate].
      intros [= _ <-]. split; [reflexivity | lia].
Qed.

(** What a submission from the open dialog does to the loading flag, to
    the number of requests and to the dates. *)
Lemma editAndSubmit_frame edits gateway w :
  forallb (deliverable (Modal (page w))) edits = true ->
  let w' := snd (editAndSubmit edits gateway w) in
  isLoading (page w') = isLoading (page w)
  /\ getAllCalls w' = getAllCalls w
  /\ (wellDated (page w) -> wellDated (page w')).
Proof.
  intros Hall w'. subst w'.
  destruct (typeInto_keeps (deliverable (Modal (page w))) "createdAt"
              edits (modalScope (page w)) w Hall)
    as (scope & Hrun & Hkeep & Hlist).
  { intros event Hev.
    destruct (deliverable_names (page w) event Hev) as [-> | ->];
      discriminate. }
  unfold editAndSubmit. cbv [mbind M_bind bind getState]. rewrite Hrun.
  destruct (addNewProgramHandler_no_reload gateway scope w) as [Hl Hc].
  split; [exact Hl|]. split; [exact Hc|].
  intros Hdated. apply addNewProgramHandler_wellDated;
    [exact Hdated | | exact Hlist].
  unfold hasDate. rewrite Hkeep. apply Hdated.
Qed.

(** Each event adds one request when it is a render with the loading flag
    set, and none otherwise. *)
Lemma step_getAllCalls ev rt rt' :
  step ev rt = Some rt' ->
  getAllCalls (world rt')
  = getAllCalls (world rt)
    + match ev with
      | Render => if isLoading (page (world rt)) then 1 else 0
      | _ => 0
      end.
Proof.
  destruct ev as [|outcome| | |edits gateway]; cbn [step].
  - destruct (renderPending (world rt)); [|discriminate].
    destruct (ProgramsPage (startRender (world rt))) as [[v|e] w'] eqn:Hr;
      [|discriminate].
    intros [= <-]. cbn [world].
    by destruct (ProgramsPage_requests _ _ _ Hr) as [_ ->].
  - destruct (unsettledGetAll rt); [discriminate|]. intros [= <-].
    cbn [world].
    destruct (getAllSettled_frame outcome (world rt)) as (_ & -> & _). lia.
  - destruct (awaitingFinally rt); [discriminate|]. intros [= <-].
    cbn. unfold getAllCalls. cbn. lia.
  - destruct (isLoading (page (world rt))); [discriminate|]. intros [= <-].
    cbn. unfold getAllCalls. cbn. lia.
  - destruct (modalOpen (page (world rt))); [|discriminate].
    destruct (forallb _ edits) eqn:Hall; [|discriminate]. intros [= <-].
    cbn [world].
    destruct (editAndSubmit_frame edits gateway (world rt) Hall)
      as (_ & -> & _). lia.
Qed.

(** No event sets the loading flag once it is cleared, and every event
    keeps the page well dated. *)
Lemma step_invariant ev rt rt' :
  step ev rt = Some rt' ->
  (isLoading (page (world rt)) = false ->
   isLoading (page (world rt')) = false)
  /\ (wellDated (page (world rt)) -> wellDated (page (world rt'))).
Proof.
  destruct ev as [|outcome| | |edits gateway]; cbn [step]; intros Hstep.
  - destruct (renderPending (world rt)); [|discriminate].
    destruct (ProgramsPage (startRender (world rt))) as [[v|e] w'] eqn:Hr;
      [|discriminate].
    injection Hstep as <-. cbn [world].
    destruct (ProgramsPage_requests _ _ _ Hr) as [-> _]. by split.
  - destruct (unsettledGetAll rt); [discriminate|]. injection Hstep as <-.
    cbn [world].
    destruct (getAllSettled_frame outcome (world rt))
      as (-> & _ & Hdraft & Hlist).
    split; [done|]. intros [Hl Hd]. unfold wellDated. rewrite Hdraft.
    split; [|exact Hd]. destruct Hlist as [-> | ->]; done.
  - destruct (awaitingFinally rt); [discriminate|]. injection Hstep as <-.
    by split.
  - destruct (isLoading (page (world rt))) eqn:Hl; [discriminate|].
    injection Hstep as <-. cbn. by split.
  - destruct (modalOpen (page (world rt))); [|discriminate].
    destruct (forallb _ edits) eqn:Hall; [|discriminate].
    injection Hstep as <-. cbn [world].
    destruct (editAndSubmit_frame edits gateway (world rt) Hall)
      as (-> & _ & Hdated).
    by split.
Qed.

(** Every page reached from mounting is well dated. *)
Lemma reachable_wellDated events : forall rt rt',
  run events rt = Some rt' ->
  wellDated (page (world rt)) -> wellDated (page (world rt')).
Proof.
  induction events as [|ev rest IH]; intros rt rt' Hrun Hd.
  - by injection Hrun as <-.
  - cbn [run] in Hrun. destruct (step ev rt) as [rt1|] eqn:Hstep;
      [|discriminate].
    apply (IH _ _ Hrun). by apply (step_invariant _ _ _ Hstep).
Qed.

(** Once the loading flag is cleared, no execution requests the list
    again: the page has no refresh or retry path. *)
Lemma no_request_after_loading events : forall rt rt',
  run events rt = Some rt' ->
  isLoading (page (world rt)) = false ->
  isLoading (page (world rt')) = false
  /\ getAllCalls (world rt') = getAllCalls (world rt).
Proof.
  induction events as [|ev rest IH]; intros rt rt' Hrun Hl.
  - injection Hrun as <-. by split.
  - cbn [run] in Hrun. destruct (step ev rt) as [rt1|] eqn:Hstep;
      [|discriminate].
    destruct (step_invariant _ _ _ Hstep) as [Hl1 _].
    pose proof (step_getAllCalls _ _ _ Hstep) as Hc.
    destruct (IH _ _ Hrun (Hl1 Hl)) as [Hl' Hc'].
    split; [exact Hl'|]. rewrite Hc', Hc.
    destruct ev; rewrite ?Hl; lia.
Qed.

(** C3.  What is displayed is decided by the loading flag and the list.
    While loading, the view is the loading indicator and nothing else.
    When not loading and the list is empty, it is the empty state: the
    illustration, the prompt and the button that opens the dialog.
    Otherwise it is the toolbar and one card per program, in order (each
    program having a creation date, as its type says).  Two worlds with the
    same flag and the same list get the same kind of view; every page
    reached from mounting gets a view; and once the chain of a [getAll()]
    that resolved to no records has run, the view is the empty state. *)
Theorem display_classification (w : World) :
  let st := page w in
  (isLoading st = true -> fst (ProgramsPage w) = Normal LoadingView)
  /\ (isLoading st = false -> programs st = [] ->
      fst (ProgramsPage w) = Normal (emptyState st))
  /\ (isLoading st = false -> programs st <> [] ->
      forallb hasDate (programs st) = true ->
      exists cards,
        fst (ProgramsPage w) = Normal (ProgramsView createButton cards (Modal st))
        /\ Forall2 shows (programs st) cards
        /\ length cards = length (programs st))
  /\ (forall w2,
        programs (page w2) = programs st ->
        isLoading (page w2) = isLoading st ->
        viewClass w2 = viewClass w)
  /\ (forall now events rt,
        run events (mounted now) = Some rt ->
        exists v, fst (ProgramsPage (world rt)) = Normal v
                  /\ viewClass (world rt) = Some (classify v))
  /\ (let loaded := snd (loadChain (Resolved []) w) in
      fst (ProgramsPage loaded) = Normal (emptyState (page loaded))
      /\ viewClass loaded = Some EmptyState).
Proof.
  intros st. subst st. split; [|split; [|split; [|split; [|split]]]].
  - intros Hload. unfold ProgramsPage. run_handler. by rewrite Hload.
  - intros Hload Hnil. unfold ProgramsPage. run_handler.
    by rewrite Hload, Hnil.
  - intros Hload Hne Hdates.
    destruct (mapCards_dates (programs (page w)) w Hdates)
      as (cards & Hrun & Hcards).
    exists cards. split; [|split].
    + assert (Hlen : Nat.eqb (length (programs (page w))) 0 = false)
        by (destruct (programs (page w)); [congruence | reflexivity]).
      unfold ProgramsPage. run_handler.
      rewrite Hload, Hlen. cbn [andb]. rewrite Hrun. reflexivity.
    + exact Hcards.
    + symmetry. by eapply Forall2_length.
  - intros w2 Hlist Hflag. unfold viewClass, ProgramsPage. run_handler.
    rewrite Hlist, Hflag.
    destruct (isLoading (page w)); [reflexivity|].
    destruct (Nat.eqb (length (programs (page w))) 0 && negb false);
      [reflexivity|].
    destruct (mapCards_pure (programs (page w))) as [c Hc].
    rewrite !Hc. destruct c; reflexivity.
  - intros now events rt Hrun.
    destruct (reachable_wellDated events _ _ Hrun (mounted_wellDated now))
      as [Hdates _].
    destruct (ProgramsPage_total (world rt) Hdates) as [v Hv].
    exists v. split; [exact Hv|]. unfold viewClass. by rewrite Hv.
  - unfold viewClass, loadChain, getAllSettled, onGetAllResolved, ProgramsPage.
    run_handler. cbn. split; reflexivity.
Qed.

Lemma display_classification_witness :
  fst (ProgramsPage (mount (NewDate 0))) = Normal LoadingView
  /\ fst (ProgramsPage dialogOpen) = Normal (emptyState (page dialogOpen))
  /\ (exists cards,
        fst (ProgramsPage twoLoaded)
        = Normal (ProgramsView createButton cards (Modal (page twoLoaded)))
        /\ Forall2 shows (programs (page twoLoaded)) cards
        /\ length cards = 2)
  /\ viewClass twoLoaded = viewClass (snd (toggleModal twoLoaded)).
Proof.
  split; [|split; [|split]].
  - apply (display_classification (mount (NewDate 0))). reflexivity.
  - apply (display_classification dialogOpen); reflexivity.
  - apply (display_classification twoLoaded);
      [reflexivity | discriminate | reflexivity].
  - apply (display_classification (snd (toggleModal twoLoaded)));
      reflexivity.
Defined.

(** C7.  In the execution [legacyModeLoad], in which every render answers
    a state update, [ProgramModel.getAll()] has been called twice by the
    third event, and twice in all when the page has settled. *)
Theorem getAll_requested_twice :
  let snapshot := [stored "Cohort 1" 1000] in
  (exists rt,
     run (take 3 (legacyModeLoad snapshot snapshot)) (mounted (NewDate 0))
     = Some rt
     /\ getAllCalls (world rt) = 2)
  /\ (exists rt,
        run (legacyModeLoad snapshot snapshot) (mounted (NewDate 0)) = Some rt
        /\ getAllCalls (world rt) = 2
        /\ isLoading (page (world rt)) = false
        /\ unsettledGetAll rt = 0
        /\ awaitingFinally rt = 0
        /\ renderPending (world rt) = false).
Proof.
  split; eexists; (split; [vm_compute; reflexivity|]); repeat split.
Qed.

(* ================================================================== *)
(** * Further properties *)
(* ================================================================== *)

(** ** The replacement [/^".+"/ -> Field] *)

Lemma afterLastQuote_plain (c : ascii) (s : string) :
  startsWithLineTerminator (String c s) = false ->
  Ascii.eqb c dquote = false ->
  afterLastQuote (String c s) = afterLastQuote s.
Proof.
  intros Hc Hq. cbn [afterLastQuote]. rewrite Hc, Hq.
  by destruct (afterLastQuote s).
Qed.

Lemma afterLastQuote_Field (rest : string) :
  afterLastQuote ("Field" +:+ rest) = afterLastQuote rest.
Proof.
  change ("Field" +:+ rest)
    with (String "F" (String "i" (String "e" (String "l" (String "d" rest))))).
  by rewrite !afterLastQuote_plain.
Qed.

(** What the scan does at each of the four line terminators, and at a
    byte sequence that only resembles one. *)
Example dot_stops_at_LF :
  replaceLeadingQuoted (String dquote ("a" +:+ String "010" ("b" +:+ quoted "c")))
  = String dquote ("a" +:+ String "010" ("b" +:+ quoted "c")).
Proof. reflexivity. Qed.

Example dot_stops_at_CR :
  replaceLeadingQuoted (String dquote ("a" +:+ String "013" ("b" +:+ quoted "c")))
  = String dquote ("a" +:+ String "013" ("b" +:+ quoted "c")).
Proof. reflexivity. Qed.

Example dot_stops_at_line_separator :
  let ls := String "226" (String "128" (String "168" EmptyString)) in
  replaceLeadingQuoted (quoted ("a" +:+ ls +:+ "b") +:+ " is bad")
  = quoted ("a" +:+ ls +:+ "b") +:+ " is bad".
Proof. reflexivity. Qed.

Example dot_stops_at_paragraph_separator :
  let ps := String "226" (String "128" (String "169" EmptyString)) in
  replaceLeadingQuoted (quoted ("a" +:+ ps +:+ "b") +:+ " is bad")
  = quoted ("a" +:+ ps +:+ "b") +:+ " is bad".
Proof. reflexivity. Qed.

Example dot_passes_other_characters :
  let euro := String "226" (String "130" (String "172" EmptyString)) in
  replaceLeadingQuoted (quoted ("a" +:+ euro +:+ "b") +:+ " is bad")
  = "Field is bad".
Proof. reflexivity. Qed.

Example quote_after_line_break_is_kept :
  replaceLeadingQuoted (quoted "a" +:+ " is bad" +:+ String "010" (quoted "b"))
  = "Field is bad" +:+ String "010" (quoted "b").
Proof. reflexivity. Qed.

(** X1.  The pattern matches exactly the strings made of a double quote, a
    non-empty body that holds no line terminator (LF, CR, U+2028,
    U+2029), a double quote, and a rest with no further double quote on
    its first line; the match then ends at that last quote.  The body may
    contain double quotes itself. *)
Theorem matchLeadingQuoted_spec (s rest : string) :
  matchLeadingQuoted s = Some rest <->
  exists body,
    body <> EmptyString
    /\ ~ hasLineTerminator body
    /\ ~ quoteOnFirstLine rest
    /\ s = quoted body +:+ rest.
Proof.
  split.
  - apply matchLeadingQuoted_Some.
  - intros (body & Hne & Hbody & Hrest & ->).
    by apply matchLeadingQuoted_quoted.
Qed.

Lemma matchLeadingQuoted_spec_witness :
  matchLeadingQuoted (message twoProblems) = Some " must be a number".
Proof.
  apply (proj2 (matchLeadingQuoted_spec (message twoProblems)
                  " must be a number")).
  exists ("title" +:+ String dquote " is not allowed to be empty. "
            +:+ String dquote "durationInWeeks").
  split; [done|]. split; [|split; [|reflexivity]].
  - apply (clearBefore_sound _ EmptyString). reflexivity.
  - apply afterLastQuote_None. reflexivity.
Defined.

(** X2.  Replacing twice is the same as replacing once: the result of a
    replacement starts with [Field], which the pattern does not match. *)
Theorem replaceLeadingQuoted_idempotent (s : string) :
  replaceLeadingQuoted (replaceLeadingQuoted s) = replaceLeadingQuoted s.
Proof.
  unfold replaceLeadingQuoted at 2 3.
  destruct (matchLeadingQuoted s) as [rest|] eqn:Hm.
  - by apply replaceLeadingQuoted_unquoted.
  - unfold replaceLeadingQuoted. by rewrite Hm.
Qed.

(** X3.  A message that starts with a double quote, a non-empty body
    holding no line terminator (LF, CR, U+2028, U+2029) and a double
    quote is displayed without any double quote on its first line; and
    these are the only messages the replacement changes: every other
    message is displayed as it is. *)
Theorem replaceLeadingQuoted_leaves_no_quote (s : string) :
  (forall body rest,
     body <> EmptyString ->
     ~ hasLineTerminator body ->
     s = quoted body +:+ rest ->
     ~ quoteOnFirstLine (replaceLeadingQuoted s))
  /\ (replaceLeadingQuoted s = s <->
      ~ exists body rest,
          body <> EmptyString
          /\ ~ hasLineTerminator body
          /\ s = quoted body +:+ rest).
Proof.
  split.
  - intros body rest Hne Hbody ->.
    destruct (matchLeadingQuoted_reaches body rest Hne Hbody) as [_ Hsome].
    unfold replaceLeadingQuoted.
    destruct (matchLeadingQuoted (quoted body +:+ rest)) as [r|] eqn:Hm;
      [|done].
    apply matchLeadingQuoted_Some in Hm as (_ & _ & _ & Hr & _).
    apply afterLastQuote_None. rewrite afterLastQuote_Field.
    by apply afterLastQuote_None.
  - unfold replaceLeadingQuoted.
    destruct (matchLeadingQuoted s) as [r|] eqn:Hm.
    + apply matchLeadingQuoted_Some in Hm as (body & Hne & Hbody & _ & ->).
      split.
      * intros Heq. unfold quoted in Heq. rewrite append_cons in Heq.
        discriminate.
      * intros Hno. exfalso. apply Hno. by exists body, r.
    + split; [|done]. intros _ (body & rest & Hne & Hbody & ->).
      by destruct (matchLeadingQuoted_reaches body rest Hne Hbody) as [_ ?].
Qed.

Lemma replaceLeadingQuoted_leaves_no_quote_witness :
  ~ quoteOnFirstLine (replaceLeadingQuoted (message twoProblems))
  /\ ~ (exists body rest,
          body <> EmptyString
          /\ ~ hasLineTerminator body
          /\ "title is required" = quoted body +:+ rest).
Proof.
  split.
  - apply (proj1 (replaceLeadingQuoted_leaves_no_quote (message twoProblems))
             "title" (" is not allowed to be empty. "
                        +:+ quoted "durationInWeeks" +:+ " must be a number")).
    + done.
    + apply (clearBefore_sound _ EmptyString). reflexivity.
    + reflexivity.
  - apply (proj1 (proj2 (replaceLeadingQuoted_leaves_no_quote
                           "title is required"))).
    reflexivity.
Defined.

(** ** The submit handler, whatever the gateway answers *)

(** X4.  Whatever [create] answers, a submission prevents the default
    navigation and then calls [create] once, with the draft of its form;
    it calls nothing else (no [getAll], no console output) and leaves the
    loading flag alone. *)
Theorem submission_calls_create_once
    (gateway : Gateway) (scope : ModalScope) (w : World) :
  let w' := snd (addNewProgramHandler gateway scope w) in
  log w' = log w ++ [PreventDefault; CallCreate (scopeNewProgram scope)]
  /\ isLoading (page w') = isLoading (page w).
Proof.
  intros w'. subst w'.
  destruct (gateway (scopeNewProgram scope)) as [id|[verr|msg]] eqn:Hgw.
  - by rewrite (addNewProgramHandler_created _ _ _ _ Hgw).
  - by destruct (addNewProgramHandler_invalid gateway scope w verr Hgw)
      as (_ & -> & _ & _ & _ & -> & _).
  - by rewrite (addNewProgramHandler_other _ _ _ _ Hgw).
Qed.

(** X5.  The handler's promise rejects in one case only: a validation
    error without details, where reading [details[0].path] throws.  The
    submitting flag is then cleared and the draft stored, as both happen
    before, but the error set is left as it was. *)
Theorem submission_rejects_only_without_details
    (gateway : Gateway) (scope : ModalScope) (w : World) :
  let result := addNewProgramHandler gateway scope w in
  (fst result = Normal tt <->
   forall verr,
     gateway (scopeNewProgram scope) = CreateRejected (IsValidationError verr) ->
     details verr <> [])
  /\ (forall verr,
        gateway (scopeNewProgram scope)
        = CreateRejected (IsValidationError verr) ->
        details verr = [] ->
        (exists msg, fst result = Throw (OtherError msg))
        /\ errors (page (snd result)) = errors (page w)
        /\ isCreatingProgram (page (snd result)) = false
        /\ newProgram (page (snd result)) = scopeNewProgram scope).
Proof.
  intros result. subst result.
  assert (Hinv : forall verr,
            gateway (scopeNewProgram scope)
            = CreateRejected (IsValidationError verr) ->
            fst (addNewProgramHandler gateway scope w)
            = match details verr with
              | [] => Throw (OtherError
                               "Cannot read property 'path' of undefined")
              | _ :: _ => Normal tt
              end).
  { intros verr Hgw. unfold addNewProgramHandler. run_handler. rewrite Hgw.
    by destruct (details verr). }
  split.
  - destruct (gateway (scopeNewProgram scope)) as [id|[verr|msg]] eqn:Hgw.
    + rewrite (addNewProgramHandler_created _ _ _ _ Hgw). by split.
    + rewrite (Hinv verr eq_refl). split.
      * intros Hn verr' [= <-]. by destruct (details verr).
      * intros Hd. specialize (Hd verr eq_refl). by destruct (details verr).
    + rewrite (addNewProgramHandler_other _ _ _ _ Hgw). by split.
  - intros verr Hgw Hd.
    destruct (addNewProgramHandler_invalid gateway scope w verr Hgw)
      as (_ & _ & Hflag & Hdraft & _ & _ & Herr).
    rewrite Hd in Herr. rewrite (Hinv verr Hgw), Hd. eauto.
Qed.

Lemma submission_rejects_only_without_details_witness :
  let reject verr : Gateway := fun _ => CreateRejected (IsValidationError verr) in
  fst (addNewProgramHandler (reject titleEmpty) cohort5Scope dialogOpen)
  = Normal tt
  /\ (let result := addNewProgramHandler (reject noDetails)
                                         cohort5Scope dialogOpen in
      (exists msg, fst result = Throw (OtherError msg))
      /\ errors (page (snd result)) = errors (page dialogOpen)
      /\ isCreatingProgram (page (snd result)) = false
      /\ newProgram (page (snd result)) = cohort5).
Proof.
  intros reject. split.
  - apply (proj1 (submission_rejects_only_without_details
                    (reject titleEmpty) cohort5Scope dialogOpen)).
    intros verr [= <-]. discriminate.
  - apply (proj2 (submission_rejects_only_without_details
                    (reject noDetails) cohort5Scope dialogOpen) noDetails);
      reflexivity.
Defined.

(** X6.  After a validation error with details, the form built from the
    new state shows the replaced message on the input whose name is the
    stored key and no error on the others: errors of an earlier attempt
    are gone.  When the key is none of the three input names (a problem on
    another field, or an empty path, stored under [undefined]), no input
    shows an error at all. *)
Theorem validation_error_shown_on_one_input
    (gateway : Gateway) (scope : ModalScope) (w : World)
    (verr : ValidationError) (key : string) :
  gateway (scopeNewProgram scope) = CreateRejected (IsValidationError verr) ->
  errorKey verr = Some key ->
  let st' := page (snd (addNewProgramHandler gateway scope w)) in
  let form := getModalContent (modalScope st') in
  Forall (fun input =>
            error input = if decide (name input = key)
                          then Some (replaceLeadingQuoted (message verr))
                          else None)
         (inputs form)
  /\ (key <> "title" -> key <> "durationInWeeks" ->
      key <> "prerequisiteProgramId" ->
      Forall (fun input => error input = None) (inputs form)).
Proof.
  intros Hgw Hkey st' form. subst form st'.
  destruct (addNewProgramHandler_invalid gateway scope w verr Hgw)
    as (_ & _ & _ & _ & _ & _ & Herr).
  unfold errorKey in Hkey. destruct (details verr) as [|d ds]; [done|].
  injection Hkey as Hkey. rewrite Hkey in Herr.
  assert (Hshow : forall field,
            errors (page (snd (addNewProgramHandler gateway scope w))) !! field
            = if decide (field = key)
              then Some (replaceLeadingQuoted (message verr)) else None).
  { intros field. rewrite Herr. destruct (decide (field = key)) as [->|Hne].
    - apply lookup_singleton_eq.
    - by apply lookup_singleton_ne. }
  split.
  - cbn [getModalContent inputs modalScope scopeErrors].
    repeat constructor; cbn [error name]; apply Hshow.
  - intros H1 H2 H3.
    cbn [getModalContent inputs modalScope scopeErrors].
    repeat constructor; cbn [error name]; rewrite Hshow;
      by destruct (decide _) as [<-|].
Qed.

Lemma validation_error_shown_on_one_input_witness :
  let reject verr : Gateway := fun _ => CreateRejected (IsValidationError verr) in
  let formAfter verr :=
    getModalContent
      (modalScope (page (snd (addNewProgramHandler (reject verr) cohort5Scope
                                                   dialogOpen)))) in
  Forall (fun input =>
            error input = if decide (name input = "title")
                          then Some "Field is not allowed to be empty"
                          else None)
         (inputs (formAfter titleEmpty))
  /\ Forall (fun input => error input = None) (inputs (formAfter rootProblem)).
Proof.
  intros reject formAfter. split.
  - apply (validation_error_shown_on_one_input
             (reject titleEmpty) cohort5Scope dialogOpen titleEmpty "title");
      reflexivity.
  - apply (validation_error_shown_on_one_input
             (reject rootProblem) cohort5Scope dialogOpen rootProblem
             "undefined"); [reflexivity | reflexivity | done | done | done].
Defined.

(** X7.  The submit button of the form built after a submission: after
    a failure that is not a validation error it is disabled and reads
    [Please Wait...], as the submitting flag was never cleared; after a
    success or a validation error it is enabled and reads
    [Create Program]. *)
Theorem submit_button_after_submission
    (gateway : Gateway) (scope : ModalScope) (w : World) :
  let st' := page (snd (addNewProgramHandler gateway scope w)) in
  submitButton (getModalContent (modalScope st'))
  = match gateway (scopeNewProgram scope) with
    | CreateRejected (OtherError _) =>
        {| buttonDisabled := true; buttonLabel := "Please Wait..." |}
    | _ => {| buttonDisabled := false; buttonLabel := "Create Program" |}
    end.
Proof.
  intros st'. subst st'.
  destruct (gateway (scopeNewProgram scope)) as [id|[verr|msg]] eqn:Hgw.
  - by rewrite (addNewProgramHandler_created _ _ _ _ Hgw).
  - destruct (addNewProgramHandler_invalid gateway scope w verr Hgw)
      as (_ & _ & Hflag & _).
    cbn [getModalContent submitButton modalScope scopeIsCreatingProgram].
    by rewrite Hflag.
  - by rewrite (addNewProgramHandler_other _ _ _ _ Hgw).
Qed.

(** X8.  The draft kept in the state changes on a validation error only,
    where it becomes the submitted draft.  A success does not reset it and
    a failure of another kind does not store what was typed: the next
    form starts from the draft stored before. *)
Theorem stored_draft_changes_on_validation_error_only
    (gateway : Gateway) (scope : ModalScope) (w : World) :
  let st' := page (snd (addNewProgramHandler gateway scope w)) in
  newProgram st'
  = match gateway (scopeNewProgram scope) with
    | CreateRejected (IsValidationError _) => scopeNewProgram scope
    | _ => newProgram (page w)
    end
  /\ scopeNewProgram (modalScope st') = newProgram st'.
Proof.
  intros st'. subst st'. split; [|done].
  destruct (gateway (scopeNewProgram scope)) as [id|[verr|msg]] eqn:Hgw.
  - by rewrite (addNewProgramHandler_created _ _ _ _ Hgw).
  - by destruct (addNewProgramHandler_invalid gateway scope w verr Hgw)
      as (_ & _ & _ & -> & _).
  - by rewrite (addNewProgramHandler_other _ _ _ _ Hgw).
Qed.

(** X9.  Two submissions from forms built with the same list that both
    succeed: the second one appends to the list its form was built with,
    not to the list the first one stored, so the list holds the second
    program only and is one entry longer, not two; and the dialog, toggled
    twice, is back as it was. *)
Theorem double_submission_keeps_second_program_only
    (gateway1 gateway2 : Gateway) (scope1 scope2 : ModalScope) (w : World)
    (id1 id2 : string) :
  gateway1 (scopeNewProgram scope1) = Created id1 ->
  gateway2 (scopeNewProgram scope2) = Created id2 ->
  scopePrograms scope2 = scopePrograms scope1 ->
  let w1 := snd (addNewProgramHandler gateway1 scope1 w) in
  let w2 := snd (addNewProgramHandler gateway2 scope2 w1) in
  programs (page w2)
  = scopePrograms scope1 ++ [<["id" := VStr id2]> (scopeNewProgram scope2)]
  /\ length (programs (page w2)) = S (length (scopePrograms scope1))
  /\ length (programs (page w2)) = length (programs (page w1))
  /\ modalOpen (page w2) = modalOpen (page w).
Proof.
  intros H1 H2 Hsame w1 w2. subst w1 w2.
  rewrite (addNewProgramHandler_created _ _ _ _ H2).
  rewrite (addNewProgramHandler_created _ _ _ _ H1). cbn.
  rewrite Hsame, !length_app, negb_involutive. cbn. repeat split; lia.
Qed.

Lemma double_submission_witness :
  let w1 := snd (addNewProgramHandler (fun _ => Created "abc123")
                                      cohort5Scope dialogOpen) in
  let w2 := snd (addNewProgramHandler (fun _ => Created "def456")
                                      cohort5Scope w1) in
  programs (page w2) = [<["id" := VStr "def456"]> cohort5]
  /\ length (programs (page w2)) = 1
  /\ length (programs (page w2)) = length (programs (page w1))
  /\ modalOpen (page w2) = true.
Proof.
  apply (double_submission_keeps_second_program_only
           (fun _ => Created "abc123") (fun _ => Created "def456")
           cohort5Scope cohort5Scope dialogOpen "abc123" "def456");
    reflexivity.
Defined.

(** ** Typing into the form *)

Lemma typeInto_edited
    (edits : list ChangeEvent) (scope : ModalScope) (w : World) :
  exists scope',
    typeInto edits scope w = (Normal scope', w)
    /\ (forall field,
          scopeNewProgram scope' !! field
          = edited edits (scopeNewProgram scope) field)
    /\ scopePrograms scope' = scopePrograms scope
    /\ scopeErrors scope' = scopeErrors scope
    /\ scopeIsCreatingProgram scope' = scopeIsCreatingProgram scope.
Proof.
  revert scope. induction edits as [|event rest IH]; intros scope.
  - exists scope. by repeat split.
  - cbn [typeInto]. unfold newProgramOnChangeHandler.
    cbv [mbind M_bind bind ret].
    destruct (IH {| scopePrograms := scopePrograms scope;
                    scopeErrors := scopeErrors scope;
                    scopeNewProgram :=
                      <[targetName event := VStr (targetValue event)]>
                        (scopeNewProgram scope);
                    scopeIsCreatingProgram := scopeIsCreatingProgram scope |})
      as (scope' & Hrun & Hdraft & Hlist & Herr & Hflag).
    exists scope'. split; [exact Hrun|]. split; [|by repeat split].
    intros field. rewrite Hdraft. unfold edited. cbn [lastEdit scopeNewProgram].
    destruct (lastEdit field rest); [done|].
    destruct (String.eqb (targetName event) field) eqn:Heq.
    + apply String.eqb_eq in Heq as ->. apply lookup_insert_eq.
    + apply String.eqb_neq in Heq. by apply lookup_insert_ne.
Qed.

(** X10.  A sequence of change events leaves each field of the draft with
    the value of the last event that names it, as a string, and with its
    old value when no event names it.  The list and the errors the form
    was built with are kept, and nothing reaches the state: a form built
    again from the state starts from the stored draft, without the edits. *)
Theorem typeInto_last_edit_wins
    (edits : list ChangeEvent) (scope : ModalScope) (w : World) :
  exists scope',
    typeInto edits scope w = (Normal scope', w)
    /\ (forall field,
          scopeNewProgram scope' !! field
          = edited edits (scopeNewProgram scope) field)
    /\ scopePrograms scope' = scopePrograms scope
    /\ scopeErrors scope' = scopeErrors scope
    /\ scopeIsCreatingProgram scope' = scopeIsCreatingProgram scope
    /\ modalScope (page (snd (typeInto edits scope w))) = modalScope (page w).
Proof.
  destruct (typeInto_edited edits scope w)
    as (scope' & Hrun & Hdraft & Hlist & Herr & Hflag).
  exists scope'. rewrite Hrun. by repeat split.
Qed.

Lemma typeInto_applyEdits (edits : list ChangeEvent) :
  forall (scope : ModalScope) (w : World),
  exists scope',
    typeInto edits scope w = (Normal scope', w)
    /\ scopeNewProgram scope' = applyEdits edits (scopeNewProgram scope)
    /\ scopePrograms scope' = scopePrograms scope.
Proof.
  induction edits as [|event rest IH]; intros scope w.
  - exists scope. by repeat split.
  - cbn [typeInto]. unfold newProgramOnChangeHandler.
    cbv [mbind M_bind bind ret].
    destruct (IH {| scopePrograms := scopePrograms scope;
                    scopeErrors := scopeErrors scope;
                    scopeNewProgram :=
                      <[targetName event := VStr (targetValue event)]>
                        (scopeNewProgram scope);
                    scopeIsCreatingProgram := scopeIsCreatingProgram scope |}
                 w) as (scope' & Hrun & Hfold & Hlist).
    exists scope'. by repeat split.
Qed.

(** X11.  A second attempt after a validation error.  The first
    submission fails on draft [D]; the form is built again from the new
    state, the user types [edits] and submits, and [create] succeeds with
    [id] on the draft so typed: the list gains one program, which has
    [id], the edited fields as typed and every other field as in [D]; and
    the error of the first attempt is cleared. *)
Theorem retry_after_validation_error
    (gateway1 gateway2 : Gateway) (scope : ModalScope) (w : World)
    (verr : ValidationError) (edits : list ChangeEvent) (id : string) :
  let D := scopeNewProgram scope in
  let w1 := snd (addNewProgramHandler gateway1 scope w) in
  let w2 := snd (editAndSubmit edits gateway2 w1) in
  gateway1 D = CreateRejected (IsValidationError verr) ->
  gateway2 (applyEdits edits D) = Created id ->
  exists created : Program,
    programs (page w2) = programs (page w) ++ [created]
    /\ created !! "id" = Some (VStr id)
    /\ (forall field, field <> "id" -> created !! field = edited edits D field)
    /\ errors (page w2) = ∅
    /\ isCreatingProgram (page w2) = false.
Proof.
  intros D w1 w2 H1 H2. subst D w1 w2.
  destruct (addNewProgramHandler_invalid gateway1 scope w verr H1)
    as (Hlist & _ & _ & Hdraft & _).
  set (w1 := snd (addNewProgramHandler gateway1 scope w)) in *.
  destruct (typeInto_edited edits (modalScope (page w1)) w1)
    as (scope2 & Hrun & Hfields & _).
  destruct (typeInto_applyEdits edits (modalScope (page w1)) w1)
    as (scope2' & Hrun' & Hfold & Hlist2).
  rewrite Hrun in Hrun'. injection Hrun' as <-.
  cbn [modalScope scopeNewProgram scopePrograms] in Hfields, Hfold, Hlist2.
  rewrite Hdraft in Hfields, Hfold. rewrite Hlist in Hlist2.
  rewrite <- Hfold in H2.
  unfold editAndSubmit. cbv [mbind M_bind bind getState]. rewrite Hrun.
  rewrite (addNewProgramHandler_created _ _ _ _ H2). cbn.
  rewrite Hlist2. eexists. split; [reflexivity|]. repeat split.
  - apply lookup_insert_eq.
  - intros field Hne. rewrite lookup_insert_ne by done. apply Hfields.
Qed.

Lemma retry_after_validation_error_witness :
  let w1 :=
    snd (addNewProgramHandler
           (fun _ => CreateRejected (IsValidationError titleEmpty))
           cohort5Scope dialogOpen) in
  let edits := [ {| targetName := "title"; targetValue := "Cohort 6" |} ] in
  let w2 := snd (editAndSubmit edits (fun _ => Created "abc123") w1) in
  exists created : Program,
    programs (page w2) = [created]
    /\ created !! "id" = Some (VStr "abc123")
    /\ created !! "title" = Some (VStr "Cohort 6")
    /\ created !! "durationInWeeks" = Some (VStr "6")
    /\ errors (page w2) = ∅.
Proof.
  intros w1 edits w2.
  destruct (retry_after_validation_error
              (fun _ => CreateRejected (IsValidationError titleEmpty))
              (fun _ => Created "abc123") cohort5Scope dialogOpen titleEmpty
              edits "abc123" eq_refl eq_refl)
    as (created & Hlist & Hid & Hfields & Herr & _).
  exists created. split; [exact Hlist|]. split; [exact Hid|].
  split; [|split; [|exact Herr]].
  - by rewrite (Hfields "title").
  - by rewrite (Hfields "durationInWeeks").
Defined.

(** X12.  Nothing checks a new program's title against the list: when
    the submitted title is the title of a listed program and [create]
    succeeds, two cards of the new list get the same [key]. *)
Theorem creation_can_duplicate_keys
    (gateway : Gateway) (scope : ModalScope) (w : World) (id : string)
    (p : Program) :
  gateway (scopeNewProgram scope) = Created id ->
  p ∈ scopePrograms scope ->
  p !! "title" = scopeNewProgram scope !! "title" ->
  ~ NoDup (programKeys
             (programs (page (snd (addNewProgramHandler gateway scope w))))).
Proof.
  intros Hgw Hin Htitle.
  rewrite (addNewProgramHandler_created _ _ _ _ Hgw). cbn [snd page programs].
  unfold programKeys. rewrite map_app. cbn [map].
  rewrite lookup_insert_ne by done. rewrite NoDup_app.
  intros (_ & Hdisjoint & _).
  apply (Hdisjoint (scopeNewProgram scope !! "title")).
  - rewrite <- Htitle. apply list_elem_of_fmap. by exists p.
  - apply list_elem_of_singleton. reflexivity.
Qed.

Lemma creation_can_duplicate_keys_witness :
  let listed := <["title" := VStr "Cohort 5"]> (stored "x" 1000) in
  let scope :=
    {| scopePrograms := [listed]; scopeErrors := ∅;
       scopeNewProgram := cohort5; scopeIsCreatingProgram := false |} in
  ~ NoDup (programKeys
             (programs (page (snd (addNewProgramHandler
                                     (fun _ => Created "abc123")
                                     scope dialogOpen))))).
Proof.
  intros listed scope.
  apply (creation_can_duplicate_keys (fun _ => Created "abc123") scope
           dialogOpen "abc123" listed).
  - reflexivity.
  - apply list_elem_of_singleton. reflexivity.
  - reflexivity.
Defined.

(** ** Loading and rendering *)

(** X13.  A load that resolves with timestamped records stores as many
    programs as there are records, in the same order; each keeps every
    field of its record but [createdAt], which becomes a [Date] with the
    time value of the record's timestamp. *)
Theorem load_keeps_every_other_field (w : World) (snapshot : list Program) :
  forallb hasTimestamp snapshot = true ->
  let loaded := programs (page (snd (loadChain (Resolved snapshot) w))) in
  length loaded = length snapshot
  /\ forall i data,
       snapshot !! i = Some data ->
       exists (p : Program) t d,
         loaded !! i = Some p
         /\ data !! "createdAt" = Some (VTimestamp t)
         /\ p !! "createdAt" = Some (VDate d)
         /\ getTime d = getTime (toDate t)
         /\ forall field, field <> "createdAt" -> p !! field = data !! field.
Proof.
  intros Hall loaded. subst loaded.
  destruct (forEachProgram_converts snapshot [] w Hall) as (list & Hrun & Hlist).
  unfold loadChain, getAllSettled, onGetAllResolved. run_handler.
  rewrite Hrun. cbn. split.
  - symmetry. by eapply Forall2_length.
  - intros i data Hi.
    destruct (Forall2_lookup_l _ _ _ _ _ Hlist Hi)
      as (p & Hp & t & d & Ht & Hd & ->).
    exists (<["createdAt" := VDate d]> data), t, d.
    split; [exact Hp|]. split; [exact Ht|]. split; [apply lookup_insert_eq|].
    split; [exact Hd|]. intros field Hne. by apply lookup_insert_ne.
Qed.

Lemma load_keeps_every_other_field_witness :
  let loaded :=
    programs (page (snd (loadChain (Resolved [stored "Cohort 1" 1000])
                                   (mount (NewDate 0))))) in
  length loaded = 1
  /\ exists (p : Program) d,
       loaded !! 0 = Some p
       /\ p !! "createdAt" = Some (VDate d)
       /\ getTime d = 1000%Z
       /\ p !! "title" = Some (VStr "Cohort 1").
Proof.
  intros loaded.
  destruct (load_keeps_every_other_field
              (mount (NewDate 0)) [stored "Cohort 1" 1000] eq_refl)
    as (Hlen & Hfields).
  split; [exact Hlen|].
  destruct (Hfields 0 (stored "Cohort 1" 1000) eq_refl)
    as (p & t & d & Hp & Ht & Hd & Htime & Hkeep).
  exists p, d. split; [exact Hp|]. split; [exact Hd|]. split.
  - rewrite Htime. by injection Ht as <-.
  - by rewrite (Hkeep "title").
Defined.

Lemma mapCards_throws (ps : list Program) :
  forallb hasDate ps = false ->
  exists msg, forall w, mapCards ps w = (Throw (OtherError msg), w).
Proof.
  induction ps as [|p ps IH]; [done|]. cbn [forallb mapCards].
  unfold hasDate at 1, card.
  destruct (p !! "createdAt") as [[| |d|]|];
    try (intros _; eexists; intros w; reflexivity).
  cbn [andb]. intros Hps. destruct (IH Hps) as [msg Hmsg].
  exists msg. intros w. cbv [mbind M_bind bind ret]. by rewrite Hmsg.
Qed.

(** X14.  Once loading is over, a single listed program whose
    [createdAt] is not a [Date] makes the render throw: no view is
    produced, not even the cards of the other programs. *)
Theorem render_throws_without_date (w : World) :
  isLoading (page w) = false ->
  forallb hasDate (programs (page w)) = false ->
  exists msg, ProgramsPage w = (Throw (OtherError msg), w)
              /\ viewClass w = None.
Proof.
  intros Hload Hdates.
  destruct (mapCards_throws _ Hdates) as [msg Hmsg].
  assert (Hlen : Nat.eqb (length (programs (page w))) 0 = false)
    by (destruct (programs (page w)); [discriminate | reflexivity]).
  exists msg. unfold viewClass, ProgramsPage. run_handler.
  rewrite Hload, Hlen. cbn [negb andb]. by rewrite !Hmsg.
Qed.

Lemma render_throws_without_date_witness :
  let w := snd (updatePrograms [undated] dialogOpen) in
  exists msg, ProgramsPage w = (Throw (OtherError msg), w)
              /\ viewClass w = None.
Proof.
  intros w.
  apply (render_throws_without_date w); reflexivity.
Defined.

(** A load that fails logs one line and writes no state cell, so it asks
    for no render. *)
Lemma getAllSettled_fails outcome w :
  loadFails outcome = true ->
  exists msg,
    getAllSettled outcome w
    = (Normal tt, {| page := page w; log := log w ++ [ConsoleLog msg];
                     renderPending := renderPending w |}).
Proof.
  unfold loadFails, getAllSettled. destruct outcome as [snapshot|err].
  - intros Hall. apply negb_true_iff in Hall.
    destruct (forEachProgram_throws snapshot [] w Hall) as (msg & Hrun).
    exists msg. unfold onGetAllResolved. run_handler. by rewrite Hrun.
  - intros _. eexists. reflexivity.
Qed.

(** The [then] and [catch] callbacks write the list and nothing else. *)
Lemma getAllSettled_touches_list_only outcome w :
  let st' := page (snd (getAllSettled outcome w)) in
  modalOpen st' = modalOpen (page w)
  /\ isCreatingProgram st' = isCreatingProgram (page w)
  /\ errors st' = errors (page w)
  /\ newProgram st' = newProgram (page w).
Proof.
  intros st'. subst st'.
  destruct (loadFails outcome) eqn:Hf.
  - destruct (getAllSettled_fails outcome w Hf) as [msg ->]. done.
  - destruct outcome as [snapshot|err]; [|done]. cbn in Hf.
    apply negb_false_iff in Hf.
    destruct (forEachProgram_converts snapshot [] w Hf) as (list & Hrun & _).
    unfold getAllSettled, onGetAllResolved. run_handler. by rewrite Hrun.
Qed.

Lemma run_getAllCalls events : forall rt rt',
  run events rt = Some rt' ->
  getAllCalls (world rt) <= getAllCalls (world rt')
  /\ getAllCalls (world rt') <= getAllCalls (world rt) + renders events.
Proof.
  induction events as [|ev rest IH]; intros rt rt' Hrun.
  - injection Hrun as <-. unfold renders. cbn. lia.
  - cbn [run] in Hrun. destruct (step ev rt) as [rt1|] eqn:Hstep; [|done].
    pose proof (step_getAllCalls _ _ _ Hstep) as Hc.
    destruct (IH _ _ Hrun) as [Hlo Hhi].
    unfold renders in *. cbn [List.filter].
    destruct ev; cbn [isRender length] in *;
      try destruct (isLoading (page (world rt))); lia.
Qed.

(** X15.  When the load fails (the request is rejected, or a record has
    no timestamp), the list is requested once in the whole life of the
    page: the failure updates no state, so no render happens before the
    [finally] callback has cleared the loading flag. *)
Theorem failed_load_requests_once
    (now : Date) (outcome : GetAllOutcome) (events : list Event)
    (rt : Runtime) :
  loadFails outcome = true ->
  run (Render :: GetAllSettles outcome :: events) (mounted now) = Some rt ->
  getAllCalls (world rt) = 1.
Proof.
  intros Hf. cbn [run step mounted world mount renderPending].
  change (ProgramsPage (startRender (mount now)))
    with (Normal LoadingView,
          {| page := initialState now; log := [CallGetAll];
             renderPending := false |}).
  cbn [page isLoading initialState Nat.add unsettledGetAll awaitingFinally
       world].
  destruct (getAllSettled_fails outcome
              {| page := initialState now; log := [CallGetAll];
                 renderPending := false |} Hf) as [msg ->].
  cbn [snd mounted mount world page log renderPending isLoading initialState
       Nat.add unsettledGetAll awaitingFinally app].
  set (rt0 := {| world := _; unsettledGetAll := 0; awaitingFinally := 1 |}).
  assert (Hq : forall evs rt1 rt2,
            isLoading (page (world rt1)) = true ->
            renderPending (world rt1) = false ->
            unsettledGetAll rt1 = 0 ->
            modalOpen (page (world rt1)) = false ->
            run evs rt1 = Some rt2 ->
            getAllCalls (world rt2) = getAllCalls (world rt1)).
  { intros evs rt1 rt2 Hl Hr Hu Hm Hrun.
    destruct evs as [|ev rest]; [by injection Hrun as <-|].
    cbn [run] in Hrun. destruct (step ev rt1) as [rt1'|] eqn:Hstep; [|done].
    pose proof (step_getAllCalls _ _ _ Hstep) as Hc.
    destruct ev as [|o| | |edits gateway]; cbn [step] in Hstep.
    - by rewrite Hr in Hstep.
    - by rewrite Hu in Hstep.
    - destruct (awaitingFinally rt1); [done|]. injection Hstep as <-.
      destruct (no_request_after_loading rest _ _ Hrun eq_refl) as [_ ->].
      cbn. unfold getAllCalls. reflexivity.
    - by rewrite Hl in Hstep.
    - by rewrite Hm in Hstep. }
  intros Hrun. by rewrite (Hq events rt0 rt).
Qed.

Lemma failed_load_requests_once_witness :
  exists rt,
    run [Render; GetAllSettles (Resolved [undated]); GetAllFinally; Render;
         ClickCreate; Render]
        (mounted (NewDate 0)) = Some rt
    /\ getAllCalls (world rt) = 1.
Proof.
  assert (Hrun : exists rt,
            run [Render; GetAllSettles (Resolved [undated]); GetAllFinally;
                 Render; ClickCreate; Render]
                (mounted (NewDate 0)) = Some rt)
    by (eexists; vm_compute; reflexivity).
  destruct Hrun as [rt Hrun]. exists rt. split; [exact Hrun|].
  exact (failed_load_requests_once (NewDate 0) (Resolved [undated]) _ rt
           eq_refl Hrun).
Defined.

(** X16.  From a page whose loading flag is cleared, no execution sets the
    flag again or requests the list again, whatever the user does: there
    is no path back to loading. *)
Theorem loaded_page_never_requests_again
    (events : list Event) (rt rt' : Runtime) :
  isLoading (page (world rt)) = false ->
  run events rt = Some rt' ->
  isLoading (page (world rt')) = false
  /\ getAllCalls (world rt') = getAllCalls (world rt)
  /\ viewClass (world rt') <> Some Loading.
Proof.
  intros Hl Hrun.
  destruct (no_request_after_loading events rt rt' Hrun Hl) as [Hl' Hc].
  split; [exact Hl'|]. split; [exact Hc|].
  unfold viewClass, ProgramsPage. run_handler. rewrite Hl'.
  destruct (Nat.eqb (length (programs (page (world rt')))) 0 && negb false);
    [done|].
  destruct (mapCards_pure (programs (page (world rt')))) as [[cards|e] ->];
    done.
Qed.

Lemma loaded_page_never_requests_again_witness :
  exists rt',
    run [Render; ClickCreate; Render;
         Submit [ {| targetName := "title"; targetValue := "Cohort 5" |} ]
                (fun _ => Created "abc123");
         Render]
        {| world := twoLoaded; unsettledGetAll := 0; awaitingFinally := 0 |}
    = Some rt'
    /\ isLoading (page (world rt')) = false
    /\ getAllCalls (world rt') = 0.
Proof.
  set (rt := {| world := twoLoaded;
                unsettledGetAll := 0; awaitingFinally := 0 |}).
  assert (Hrun : exists rt',
            run [Render; ClickCreate; Render;
                 Submit [ {| targetName := "title";
                             targetValue := "Cohort 5" |} ]
                        (fun _ => Created "abc123");
                 Render] rt = Some rt')
    by (eexists; vm_compute; reflexivity).
  destruct Hrun as [rt' Hrun]. exists rt'. split; [exact Hrun|].
  destruct (loaded_page_never_requests_again _ rt rt' eq_refl Hrun)
    as (Hl & Hc & _).
  split; [exact Hl | exact Hc].
Defined.

Lemma mounted_first_step now ev rt :
  step ev (mounted now) = Some rt -> ev = Render /\ getAllCalls (world rt) = 1.
Proof.
  destruct ev; cbn [step mounted world mount renderPending page isLoading
                    initialState modalOpen unsettledGetAll awaitingFinally
                    andb]; try done.
  change (ProgramsPage (startRender (mount now)))
    with (Normal LoadingView,
          {| page := initialState now; log := [CallGetAll];
             renderPending := false |}).
  by intros [= <-].
Qed.

(** X17.  In every execution from mounting, the list is requested at most
    as often as the page is rendered, and at least once as soon as
    anything has happened: the first event can only be the mounting
    render, which requests it. *)
Theorem requests_between_one_and_renders
    (now : Date) (events : list Event) (rt : Runtime) :
  run events (mounted now) = Some rt ->
  getAllCalls (world rt) <= renders events
  /\ (events <> [] -> 1 <= getAllCalls (world rt))
  /\ (forall ev rest, events = ev :: rest -> ev = Render).
Proof.
  intros Hrun. split; [|split].
  - by destruct (run_getAllCalls events _ _ Hrun) as [_ Hhi].
  - intros Hne. destruct events as [|ev rest]; [done|].
    cbn [run] in Hrun.
    destruct (step ev (mounted now)) as [rt1|] eqn:Hstep; [|done].
    destruct (mounted_first_step _ _ _ Hstep) as [_ Hone].
    destruct (run_getAllCalls rest _ _ Hrun) as [Hlo _]. lia.
  - intros ev rest ->. cbn [run] in Hrun.
    destruct (step ev (mounted now)) as [rt1|] eqn:Hstep; [|done].
    by destruct (mounted_first_step _ _ _ Hstep) as [-> _].
Qed.

Lemma requests_between_one_and_renders_witness :
  exists rt,
    run (legacyModeLoad [stored "Cohort 1" 1000] [stored "Cohort 1" 1000])
        (mounted (NewDate 0)) = Some rt
    /\ getAllCalls (world rt) <= 4
    /\ 1 <= getAllCalls (world rt).
Proof.
  assert (Hrun : exists rt,
            run (legacyModeLoad [stored "Cohort 1" 1000]
                                [stored "Cohort 1" 1000])
                (mounted (NewDate 0)) = Some rt)
    by (eexists; vm_compute; reflexivity).
  destruct Hrun as [rt Hrun]. exists rt. split; [exact Hrun|].
  destruct (requests_between_one_and_renders _ _ _ Hrun) as (Hhi & Hlo & _).
  split; [exact Hhi | by apply Hlo].
Defined.

(** X18.  While the page is loading, nothing but the list can have
    changed since mounting: the dialog is closed, no submission is under
    way, and the errors and the draft are the initial ones.  The create
    button is not rendered in the loading view, so a program is never
    created before the first load is over. *)
Theorem nothing_created_while_loading
    (now : Date) (events : list Event) (rt : Runtime) :
  run events (mounted now) = Some rt ->
  isLoading (page (world rt)) = true ->
  modalOpen (page (world rt)) = false
  /\ isCreatingProgram (page (world rt)) = false
  /\ errors (page (world rt)) = errors (initialState now)
  /\ newProgram (page (world rt)) = newProgram (initialState now)
  /\ Forall (fun e => forall draft, e <> CallCreate draft) (log (world rt)).
Proof.
  assert (Hgen : forall evs rt1 rt2,
            run evs rt1 = Some rt2 ->
            (isLoading (page (world rt1)) = true ->
             modalOpen (page (world rt1)) = false
             /\ isCreatingProgram (page (world rt1)) = false
             /\ errors (page (world rt1)) = errors (initialState now)
             /\ newProgram (page (world rt1)) = newProgram (initialState now)
             /\ Forall (fun e => forall draft, e <> CallCreate draft)
                       (log (world rt1))) ->
            isLoading (page (world rt2)) = true ->
            modalOpen (page (world rt2)) = false
            /\ isCreatingProgram (page (world rt2)) = false
            /\ errors (page (world rt2)) = errors (initialState now)
            /\ newProgram (page (world rt2)) = newProgram (initialState now)
            /\ Forall (fun e => forall draft, e <> CallCreate draft)
                      (log (world rt2))).
  { induction evs as [|ev rest IH]; intros rt1 rt2 Hrun Hinv.
    - by injection Hrun as <-.
    - cbn [run] in Hrun. destruct (step ev rt1) as [rt1'|] eqn:Hstep; [|done].
      apply (IH _ _ Hrun). intros Hl'.
      destruct (isLoading (page (world rt1))) eqn:Hl.
      2: { destruct (step_invariant _ _ _ Hstep) as [Hstay _].
           rewrite (Hstay Hl) in Hl'. done. }
      destruct (Hinv eq_refl) as (Hm & Hc & He & Hd & Hlog).
      destruct ev as [|outcome| | |edits gateway]; cbn [step] in Hstep.
      + destruct (renderPending (world rt1)); [|done].
        destruct (ProgramsPage (startRender (world rt1))) as [[v|e] w'] eqn:Hr;
          [|done].
        injection Hstep as <-. cbn [world].
        revert Hr. unfold ProgramsPage. run_handler.
        cbn [startRender page log]. rewrite Hl. intros [= _ <-]. cbn.
        repeat split; try done.
        apply Forall_app. split; [exact Hlog|]. by repeat constructor.
      + destruct (unsettledGetAll rt1); [done|]. injection Hstep as <-.
        cbn [world] in *.
        destruct (getAllSettled_touches_list_only outcome (world rt1))
          as (-> & -> & -> & ->).
        repeat split; try done.
        destruct (loadFails outcome) eqn:Hf.
        * destruct (getAllSettled_fails outcome (world rt1) Hf) as [msg ->].
          cbn. apply Forall_app. split; [exact Hlog|]. by repeat constructor.
        * destruct outcome as [snapshot|err]; [|done]. cbn in Hf.
          apply negb_false_iff in Hf.
          destruct (forEachProgram_converts snapshot [] (world rt1) Hf)
            as (list & Hrun' & _).
          unfold getAllSettled, onGetAllResolved. run_handler.
          by rewrite Hrun'.
      + destruct (awaitingFinally rt1); [done|]. injection Hstep as <-.
        cbn in Hl'. done.
      + by rewrite Hl in Hstep.
      + by rewrite Hm in Hstep. }
  intros Hrun. apply (Hgen events (mounted now) rt Hrun).
  intros _. cbn. by repeat split.
Qed.

Lemma nothing_created_while_loading_witness :
  exists rt,
    run [Render; GetAllSettles (Resolved [stored "Cohort 1" 1000]); Render]
        (mounted (NewDate 0)) = Some rt
    /\ programs (page (world rt)) <> []
    /\ modalOpen (page (world rt)) = false
    /\ newProgram (page (world rt)) = newProgram (initialState (NewDate 0)).
Proof.
  assert (Hrun : exists rt,
            run [Render; GetAllSettles (Resolved [stored "Cohort 1" 1000]);
                 Render]
                (mounted (NewDate 0)) = Some rt
            /\ isLoading (page (world rt)) = true
            /\ programs (page (world rt)) <> [])
    by (eexists; split; [vm_compute; reflexivity | split; [reflexivity | done]]).
  destruct Hrun as (rt & Hrun & Hl & Hne). exists rt.
  split; [exact Hrun|]. split; [exact Hne|].
  destruct (nothing_created_while_loading _ _ _ Hrun Hl)
    as (Hm & _ & _ & Hd & _).
  split; [exact Hm | exact Hd].
Defined.

(** ** The Settings page *)

(** X19.  Clicking the button of the Settings page [n] times prints
    [Create Data] [n] times and does nothing else: the view is fixed, and
    no state of the Programs page is touched. *)
Theorem settings_clicks_only_log (n : nat) (w : World) :
  settingsClicks n w
  = (Normal tt,
     {| page := page w;
        log := log w ++ replicate n (ConsoleLog "Create Data");
        renderPending := renderPending w |}).
Proof.
  revert w. induction n as [|n IH]; intros w.
  - cbn [settingsClicks replicate]. rewrite app_nil_r. by destruct w.
  - cbn [settingsClicks replicate]. unfold settingsOnClick.
    cbv [mbind M_bind bind emit]. rewrite IH. cbn [page log renderPending].
    by rewrite <- app_assoc.
Qed.
